(** * Whisper JNI binding (nativelib/src/main/jni/whisper/jni.c)

    A shallow embedding of the JNI glue between the Kotlin class
    [WhisperLib] and the whisper.cpp engine.  The binding owns no
    algorithm: every function is a short sequence of calls into three
    collaborators, the Java VM (through [JNIEnv]), the Android asset
    manager and the engine.  The collaborators are interfaces here
    ([Host], [Engine]); the binding's functions are written against
    them in a state-and-failure monad, one monadic step per C statement,
    and every call that leaves the binding is recorded in a trace. *)

From Stdlib Require Import ZArith Lia.
From stdpp Require Import base option list gmap strings.

Local Open Scope Z_scope.

(** ** C integer types *)

(** The two data models of the Android ABIs: armeabi-v7a and x86 are
    ILP32, arm64-v8a and x86_64 are LP64.  Only [size_t] and pointers
    differ between them. *)
Inductive abi := ILP32 | LP64.

Definition size_bits (a : abi) : Z :=
  match a with ILP32 => 32 | LP64 => 64 end.

(** Conversion to an unsigned / signed integer type of [w] bits. *)
Definition wrap_unsigned (w z : Z) : Z := z mod 2 ^ w.

Definition wrap_signed (w z : Z) : Z :=
  (z + 2 ^ (w - 1)) mod 2 ^ w - 2 ^ (w - 1).

Definition to_size_t (a : abi) (z : Z) : Z := wrap_unsigned (size_bits a) z.
Definition to_int (z : Z) : Z := wrap_signed 32 z.
Definition to_jlong (z : Z) : Z := wrap_signed 64 z.

Definition is_size_t (a : abi) (z : Z) : Prop := 0 <= z < 2 ^ size_bits a.
Definition is_jint (z : Z) : Prop := - 2 ^ 31 <= z < 2 ^ 31.

Definition INT_MAX : Z := 2 ^ 31 - 1.

(** [static inline int min(int a, int b)]: the arguments are converted
    to [int] at the call; see [inputStreamRead]. *)
Definition min (a b : Z) : Z := if a <? b then a else b.
Definition max (a b : Z) : Z := if a >? b then a else b.

(** What the conversion at the call of [min] does to a [size_t]
    beyond [INT_MAX]. *)
Example to_int_wraps :
  to_int 4294967296 = 0 /\ to_int 4294967301 = 5 /\ to_int 2147483648 = -2147483648.
Proof. repeat split. Qed.

Example min_is_signed : min (-1) 4 = -1 /\ min 7 4 = 4 /\ max 7 4 = 7.
Proof. repeat split. Qed.

Lemma to_int_id z : is_jint z -> to_int z = z.
Proof.
  unfold is_jint, to_int, wrap_signed. intros H.
  rewrite Z.mod_small; lia.
Qed.

Lemma to_int_range z : is_jint (to_int z).
Proof.
  unfold is_jint, to_int, wrap_signed.
  pose proof (Z.mod_pos_bound (z + 2 ^ (32 - 1)) (2 ^ 32) ltac:(lia)). lia.
Qed.

Lemma to_size_t_id a z : is_size_t a z -> to_size_t a z = z.
Proof. unfold is_size_t, to_size_t, wrap_unsigned. intros H. apply Z.mod_small. lia. Qed.

Lemma to_size_t_range a z : is_size_t a (to_size_t a z).
Proof.
  unfold is_size_t, to_size_t, wrap_unsigned.
  apply Z.mod_pos_bound. destruct a; simpl; lia.
Qed.

(** A [jint] survives the round trip through [size_t]: this is the
    [(size_t)avail_size] argument of [min]. *)
Lemma to_int_to_size_t a z : is_jint z -> to_int (to_size_t a z) = z.
Proof.
  unfold is_jint, to_int, to_size_t, wrap_signed, wrap_unsigned. intros H.
  destruct a; simpl size_bits.
  - replace (2 ^ (32 - 1)) with 2147483648 by reflexivity.
    replace (2 ^ 32) with 4294967296 by reflexivity.
    replace (2 ^ 31) with 2147483648 in H by reflexivity.
    destruct (Z_lt_le_dec z 0).
    + rewrite <- (Z.mod_unique_pos z 4294967296 (-1) (z + 4294967296)) by lia.
      rewrite <- (Z.mod_unique_pos _ 4294967296 1 (z + 2147483648)) by lia. lia.
    + rewrite (Z.mod_small z) by lia. rewrite Z.mod_small; lia.
  - replace (2 ^ (32 - 1)) with 2147483648 by reflexivity.
    replace (2 ^ 32) with 4294967296 by reflexivity.
    replace (2 ^ 64) with 18446744073709551616 by reflexivity.
    replace (2 ^ 31) with 2147483648 in H by reflexivity.
    destruct (Z_lt_le_dec z 0).
    + rewrite <- (Z.mod_unique_pos z 18446744073709551616 (-1) (z + 18446744073709551616)) by lia.
      rewrite <- (Z.mod_unique_pos _ 4294967296 4294967296 (z + 2147483648)) by lia. lia.
    + rewrite (Z.mod_small z) by lia. rewrite Z.mod_small; lia.
Qed.

(** ** Values that cross the boundary *)

(** A [jobject] (and [jstring], [jclass], the array types) is a
    reference into the Java heap; 0 is the null reference.  Native
    pointers ([whisper_context *], [AAsset *], [AAssetManager *]) are
    addresses, 0 being NULL.  A [const char *] is its text, or [None]
    for NULL.  A [jfloat] is carried as its 32-bit pattern: the binding
    never computes on samples. *)
Abbreviation byte := Byte.byte.

Definition jref := Z.
Definition pointer := Z.
Definition c_str := option string.
Definition jfloat := Z.

Definition NULL : pointer := 0.

Inductive jobject_data :=
| ObjByteArray (bs : list byte)
| ObjFloatArray (fs : list jfloat)
| ObjString (s : string)
| ObjClass (cls_of : jref)
| ObjOther.

Record jmethodID := { m_name : string; m_sig : string }.

#[global] Instance jmethodID_eq_dec : EqDecision jmethodID.
Proof. solve_decision. Defined.

Inductive jvalue := JObj (r : jref) | JInt (z : Z).

(** The [mode] argument of [Release<Type>ArrayElements]. *)
Inductive release_mode := JNI_COPY_AND_FREE | JNI_COMMIT | JNI_ABORT.

(** [jboolean] is an unsigned byte. *)
Definition JNI_TRUE : Z := 1.

(** Native views of Java data handed out by [Get...Elements] /
    [GetStringUTFChars] and not yet released. *)
Inductive pin := PinBytes (r : jref) | PinFloats (r : jref) | PinUTF (r : jref).

#[global] Instance pin_eq_dec : EqDecision pin.
Proof. solve_decision. Defined.

Record jvm := {
  heap : gmap Z jobject_data;
  local_refs : list jref;
  pins : list pin
}.

Inductive asset_mode :=
| AASSET_MODE_UNKNOWN | AASSET_MODE_RANDOM | AASSET_MODE_STREAMING | AASSET_MODE_BUFFER.

Inductive whisper_sampling_strategy :=
| WHISPER_SAMPLING_GREEDY | WHISPER_SAMPLING_BEAM_SEARCH.

(** [struct whisper_full_params]: the fields the binding assigns, and
    the remaining ones kept together as [fp_other]. *)
Record whisper_full_params (R : Type) := {
  fp_strategy : whisper_sampling_strategy;
  fp_n_threads : Z;
  fp_offset_ms : Z;
  fp_translate : bool;
  fp_no_context : bool;
  fp_single_segment : bool;
  fp_print_special : bool;
  fp_print_progress : bool;
  fp_print_realtime : bool;
  fp_print_timestamps : bool;
  fp_language : c_str;
  fp_other : R
}.
Arguments fp_strategy {R}. Arguments fp_n_threads {R}. Arguments fp_offset_ms {R}.
Arguments fp_translate {R}. Arguments fp_no_context {R}. Arguments fp_single_segment {R}.
Arguments fp_print_special {R}. Arguments fp_print_progress {R}.
Arguments fp_print_realtime {R}. Arguments fp_print_timestamps {R}.
Arguments fp_language {R}. Arguments fp_other {R}.

(** ** The stream adapter's state and the loader table *)

(** [struct input_stream_context].  The [env] field is the ambient
    JNI environment, which is the [world] below. *)
Record input_stream_context := {
  offset : Z;
  thiz : jref;
  input_stream : jref;
  mid_available : jmethodID;
  mid_read : jmethodID
}.

(** The function pointers stored in a [whisper_model_loader]. *)
Inductive read_fn := fn_inputStreamRead | fn_asset_read.
Inductive eof_fn := fn_inputStreamEof | fn_asset_is_eof.
Inductive close_fn := fn_inputStreamClose | fn_asset_close.

(** What [loader.context] points to. *)
Inductive loader_context :=
| ctx_input_stream (ictx : input_stream_context)
| ctx_asset (asset : pointer).

Record whisper_model_loader := {
  context : loader_context;
  read : read_fn;
  eof : eof_fn;
  close : close_fn
}.

(** How the engine drives a loader: a finite tree of callback requests.
    [LoadRead buf n k] passes a destination buffer (with its current
    content) and a size, and continues with the buffer afterwards and
    the returned count. *)
Inductive load_script (G : Type) :=
| LoadRead (buf : list byte) (n : Z) (k : list byte -> Z -> load_script G)
| LoadEof (k : bool -> load_script G)
| LoadClose (k : load_script G)
| LoadDone (ctx : pointer) (g : G).
Arguments LoadRead {G}. Arguments LoadEof {G}.
Arguments LoadClose {G}. Arguments LoadDone {G}.

(** ** The collaborators *)

(** The host side: Java streams ([java.io.InputStream], any subclass)
    and the Android asset manager.  [host_read r bs off len] is
    [r.read(b, off, len)] on an array holding [bs]; it answers the
    count and the array content afterwards. *)
Class Host (H : Type) := {
  host_available : jref -> H -> Z * H;
  host_read : jref -> list byte -> Z -> Z -> H -> Z * list byte * H;
  host_available_jint : forall r h, is_jint (host_available r h).1;
  host_read_jint : forall r bs off len h, is_jint (host_read r bs off len h).1.1;
  host_asset_manager : jref -> pointer;
  host_asset_open : pointer -> c_str -> asset_mode -> H -> pointer * H;
  host_asset_read : pointer -> Z -> H -> Z * list byte * H;
  host_asset_remaining : pointer -> H -> Z;
  host_asset_close : pointer -> H -> H
}.

(** The engine's C API, as far as the binding calls it.  [G] is the
    engine's state, [FP] the unassigned part of [whisper_full_params],
    [CP] is [struct whisper_context_params]. *)
Class Engine (G FP CP : Type) := {
  eng_full_default_params : whisper_sampling_strategy -> whisper_full_params FP;
  eng_context_default_params : CP;
  eng_init : G -> load_script G;
  eng_init_with_params : CP -> G -> load_script G;
  eng_init_from_file_with_params : c_str -> CP -> G -> pointer * G;
  eng_free : pointer -> G -> G;
  eng_reset_timings : pointer -> G -> G;
  eng_print_timings : pointer -> G -> G;
  eng_full : pointer -> whisper_full_params FP -> list jfloat -> Z -> G -> Z * G;
  eng_full_n_segments : pointer -> G -> Z;
  eng_full_get_segment_text : pointer -> Z -> G -> c_str;
  eng_full_get_segment_t0 : pointer -> Z -> G -> Z;
  eng_full_get_segment_t1 : pointer -> Z -> G -> Z;
  eng_print_system_info : G -> c_str;
  eng_bench_memcpy_str : Z -> G -> c_str;
  eng_bench_ggml_mul_mat_str : Z -> G -> c_str
}.

(** ** The trace of calls leaving the binding *)

Inductive log_priority := ANDROID_LOG_INFO | ANDROID_LOG_WARN.
Inductive log_arg := ArgStr (s : c_str) | ArgSize (z : Z) | ArgInt (z : Z).

Inductive event (FP CP : Type) :=
| E_log (prio : log_priority) (tag fmt : string) (args : list log_arg)
| E_CallIntMethod (obj : jref) (mid : jmethodID) (args : list jvalue)
| E_NewByteArray (n : Z)
| E_GetByteArrayElements (arr : jref)
| E_ReleaseByteArrayElements (arr : jref) (mode : release_mode)
| E_DeleteLocalRef (r : jref)
| E_GetObjectClass (obj : jref)
| E_GetMethodID (cls : jref) (name sig : string)
| E_GetStringUTFChars (s : jref)
| E_ReleaseStringUTFChars (s : jref)
| E_GetFloatArrayElements (arr : jref)
| E_GetArrayLength (arr : jref)
| E_ReleaseFloatArrayElements (arr : jref) (mode : release_mode)
| E_NewStringUTF (s : c_str)
| E_AAssetManager_fromJava (mgr : jref)
| E_AAssetManager_open (mgr : pointer) (path : c_str) (mode : asset_mode)
| E_AAsset_read (asset : pointer) (n : Z)
| E_AAsset_getRemainingLength64 (asset : pointer)
| E_AAsset_close (asset : pointer)
| E_whisper_init (loader : whisper_model_loader)
| E_whisper_init_with_params (loader : whisper_model_loader) (cp : CP)
| E_whisper_init_from_file_with_params (path : c_str) (cp : CP)
| E_whisper_context_default_params
| E_whisper_full_default_params (s : whisper_sampling_strategy)
| E_whisper_free (ctx : pointer)
| E_whisper_reset_timings (ctx : pointer)
| E_whisper_print_timings (ctx : pointer)
| E_whisper_full (ctx : pointer) (params : whisper_full_params FP)
    (samples : list jfloat) (n_samples : Z)
| E_whisper_full_n_segments (ctx : pointer)
| E_whisper_full_get_segment_text (ctx : pointer) (i : Z)
| E_whisper_full_get_segment_t0 (ctx : pointer) (i : Z)
| E_whisper_full_get_segment_t1 (ctx : pointer) (i : Z)
| E_whisper_print_system_info
| E_whisper_bench_memcpy_str (n_threads : Z)
| E_whisper_bench_ggml_mul_mat_str (n_threads : Z).
Arguments E_log {FP CP}. Arguments E_CallIntMethod {FP CP}.
Arguments E_NewByteArray {FP CP}. Arguments E_GetByteArrayElements {FP CP}.
Arguments E_ReleaseByteArrayElements {FP CP}. Arguments E_DeleteLocalRef {FP CP}.
Arguments E_GetObjectClass {FP CP}. Arguments E_GetMethodID {FP CP}.
Arguments E_GetStringUTFChars {FP CP}. Arguments E_ReleaseStringUTFChars {FP CP}.
Arguments E_GetFloatArrayElements {FP CP}. Arguments E_GetArrayLength {FP CP}.
Arguments E_ReleaseFloatArrayElements {FP CP}. Arguments E_NewStringUTF {FP CP}.
Arguments E_AAssetManager_fromJava {FP CP}. Arguments E_AAssetManager_open {FP CP}.
Arguments E_AAsset_read {FP CP}. Arguments E_AAsset_getRemainingLength64 {FP CP}.
Arguments E_AAsset_close {FP CP}. Arguments E_whisper_init {FP CP}.
Arguments E_whisper_init_with_params {FP CP}.
Arguments E_whisper_init_from_file_with_params {FP CP}.
Arguments E_whisper_context_default_params {FP CP}.
Arguments E_whisper_full_default_params {FP CP}.
Arguments E_whisper_free {FP CP}. Arguments E_whisper_reset_timings {FP CP}.
Arguments E_whisper_print_timings {FP CP}. Arguments E_whisper_full {FP CP}.
Arguments E_whisper_full_n_segments {FP CP}.
Arguments E_whisper_full_get_segment_text {FP CP}.
Arguments E_whisper_full_get_segment_t0 {FP CP}.
Arguments E_whisper_full_get_segment_t1 {FP CP}.
Arguments E_whisper_print_system_info {FP CP}.
Arguments E_whisper_bench_memcpy_str {FP CP}.
Arguments E_whisper_bench_ggml_mul_mat_str {FP CP}.

(** ** Small list helpers *)

Fixpoint remove_first {A} `{EqDecision A} (x : A) (l : list A) : list A :=
  match l with
  | [] => []
  | y :: l' => if decide (x = y) then l' else y :: remove_first x l'
  end.

(** Updates of the Java side. *)
Definition jvm_store (r : jref) (o : jobject_data) (j : jvm) : jvm :=
  {| heap := <[r := o]> (heap j); local_refs := local_refs j; pins := pins j |}.
Definition jvm_add_ref (r : jref) (j : jvm) : jvm :=
  {| heap := heap j; local_refs := r :: local_refs j; pins := pins j |}.
Definition jvm_drop_ref (r : jref) (j : jvm) : jvm :=
  {| heap := heap j; local_refs := remove_first r (local_refs j); pins := pins j |}.
Definition jvm_add_pin (p : pin) (j : jvm) : jvm :=
  {| heap := heap j; local_refs := local_refs j; pins := p :: pins j |}.
Definition jvm_drop_pin (p : pin) (j : jvm) : jvm :=
  {| heap := heap j; local_refs := local_refs j; pins := remove_first p (pins j) |}.

(** A reference no object has yet, and not the null reference. *)
Definition new_ref (j : jvm) : jref := fresh ({[0]} ∪ dom (heap j)).

(** [memcpy(dst, src, n)]: undefined ([None]) unless both objects hold
    [n] bytes. *)
Definition memcpy (dst src : list byte) (n : Z) : option (list byte) :=
  if (0 <=? n) && (n <=? Z.of_nat (length src)) && (n <=? Z.of_nat (length dst))
  then Some (take (Z.to_nat n) src ++ drop (Z.to_nat n) dst)
  else None.

Definition TAG : string := "JNI".

(** The line feed (character 10), which a C string literal spells with
    a backslash escape: it ends the two log formats of
    [whisper_init_from_asset]. *)
Definition LF : string := String (Ascii.ascii_of_byte Byte.x0a) EmptyString.

Example format_ends_in_line_feed :
  String.length ("Failed to open '%s'" +:+ LF) = 20%nat
  /\ String.length ("Loading model from asset '%s'" +:+ LF) = 30%nat
  /\ String.get 19 ("Failed to open '%s'" +:+ LF) = Some (Ascii.ascii_of_nat 10)
  /\ String.get 29 ("Loading model from asset '%s'" +:+ LF) = Some (Ascii.ascii_of_nat 10).
Proof. repeat split. Qed.

Section Binding.
Context (a : abi).
Context {H : Type} `{!Host H}.
Context {G FP CP : Type} `{!Engine G FP CP}.

(** ** The world and the monad *)

Record world := {
  w_jvm : jvm;
  w_host : H;
  w_engine : G;
  w_trace : list (event FP CP)
}.

(** A computation either returns a value and a new world, or does
    not return: [None] stands for an abort of the process or for
    undefined behaviour. *)
Definition M (A : Type) : Type := world -> option (A * world).

#[global] Instance M_ret : MRet M := fun A x w => Some (x, w).
#[global] Instance M_bind : MBind M := fun A B f m w =>
  match m w with
  | Some (x, w') => f x w'
  | None => None
  end.

Definition crash {A} : M A := fun _ => None.

(** World updates. *)
Definition record_event (e : event FP CP) (w : world) : world :=
  {| w_jvm := w_jvm w; w_host := w_host w;
     w_engine := w_engine w; w_trace := w_trace w ++ [e] |}.
Definition set_jvm (j : jvm) (w : world) : world :=
  {| w_jvm := j; w_host := w_host w;
     w_engine := w_engine w; w_trace := w_trace w |}.
Definition set_host (h : H) (w : world) : world :=
  {| w_jvm := w_jvm w; w_host := h;
     w_engine := w_engine w; w_trace := w_trace w |}.
Definition set_engine (g : G) (w : world) : world :=
  {| w_jvm := w_jvm w; w_host := w_host w;
     w_engine := g; w_trace := w_trace w |}.

Definition emit (e : event FP CP) : M unit := fun w => Some (tt, record_event e w).

Definition get_jvm : M jvm := fun w => Some (w_jvm w, w).
Definition put_jvm (j : jvm) : M unit := fun w => Some (tt, set_jvm j w).

Definition get_host : M H := fun w => Some (w_host w, w).
Definition put_host (h : H) : M unit := fun w => Some (tt, set_host h w).

Definition get_engine : M G := fun w => Some (w_engine w, w).
Definition put_engine (g : G) : M unit := fun w => Some (tt, set_engine g w).

Definition lift_option {A} (o : option A) : M A :=
  match o with Some x => mret x | None => crash end.

(** ** Logging: [__android_log_print] through LOGI / LOGW *)

Definition LOGI (fmt : string) (args : list log_arg) : M unit :=
  emit (E_log ANDROID_LOG_INFO TAG fmt args).
Definition LOGW (fmt : string) (args : list log_arg) : M unit :=
  emit (E_log ANDROID_LOG_WARN TAG fmt args).

(** ** The JNI functions the binding uses *)

(** A new object, reachable through a new local reference. *)
Definition allocate (o : jobject_data) : M jref :=
  j ← get_jvm;
  let r := new_ref j in
  put_jvm (jvm_add_ref r (jvm_store r o j));;
  mret r.

Definition add_pin (p : pin) : M unit :=
  j ← get_jvm;
  put_jvm (jvm_add_pin p j).

(** Releasing what was not handed out is undefined. *)
Definition drop_pin (p : pin) : M unit :=
  j ← get_jvm;
  if decide (p ∈ pins j) then put_jvm (jvm_drop_pin p j) else crash.

Definition store (r : jref) (o : jobject_data) : M unit :=
  j ← get_jvm;
  put_jvm (jvm_store r o j).

Definition byte_array_at (r : jref) : M (list byte) :=
  j ← get_jvm;
  match heap j !! r with Some (ObjByteArray bs) => mret bs | _ => crash end.

Definition float_array_at (r : jref) : M (list jfloat) :=
  j ← get_jvm;
  match heap j !! r with Some (ObjFloatArray fs) => mret fs | _ => crash end.

Definition string_at (r : jref) : M string :=
  j ← get_jvm;
  match heap j !! r with Some (ObjString s) => mret s | _ => crash end.

Definition MID_available : jmethodID := {| m_name := "available"; m_sig := "()I" |}.
Definition MID_read : jmethodID := {| m_name := "read"; m_sig := "([BII)I" |}.

(** [CallIntMethod(env, obj, mid, ...)] on a stream: dispatch on the
    method id.  [read] may store into the array it was given, and
    cannot change its length. *)
Definition CallIntMethod (obj : jref) (mid : jmethodID) (args : list jvalue) : M Z :=
  emit (E_CallIntMethod obj mid args);;
  if decide (mid = MID_available) then
    match args with
    | [] =>
        h ← get_host;
        let '(n, h') := host_available obj h in
        put_host h';; mret n
    | _ => crash
    end
  else if decide (mid = MID_read) then
    match args with
    | [JObj arr; JInt off; JInt len] =>
        bs ← byte_array_at arr;
        h ← get_host;
        let '(n, bs', h') := host_read obj bs off len h in
        put_host h';;
        store arr (ObjByteArray (resize (length bs) Byte.x00 bs'));;
        mret n
    | _ => crash
    end
  else crash.

(** [NewByteArray]: a zero-filled array.  A negative length does not
    return: the Android runtime aborts on it. *)
Definition NewByteArray (n : Z) : M jref :=
  emit (E_NewByteArray n);;
  if n <? 0 then crash
  else allocate (ObjByteArray (replicate (Z.to_nat n) Byte.x00)).

Definition GetByteArrayElements (arr : jref) : M (list byte) :=
  emit (E_GetByteArrayElements arr);;
  bs ← byte_array_at arr;
  add_pin (PinBytes arr);;
  mret bs.

(** The native view [elems] is written back unless the mode is
    [JNI_ABORT], and given up unless it is [JNI_COMMIT]. *)
Definition ReleaseByteArrayElements (arr : jref) (elems : list byte)
    (mode : release_mode) : M unit :=
  emit (E_ReleaseByteArrayElements arr mode);;
  match mode with
  | JNI_COPY_AND_FREE => store arr (ObjByteArray elems);; drop_pin (PinBytes arr)
  | JNI_COMMIT =>
      j ← get_jvm;
      if decide (PinBytes arr ∈ pins j) then store arr (ObjByteArray elems) else crash
  | JNI_ABORT => drop_pin (PinBytes arr)
  end.

Definition GetFloatArrayElements (arr : jref) : M (list jfloat) :=
  emit (E_GetFloatArrayElements arr);;
  fs ← float_array_at arr;
  add_pin (PinFloats arr);;
  mret fs.

Definition ReleaseFloatArrayElements (arr : jref) (elems : list jfloat)
    (mode : release_mode) : M unit :=
  emit (E_ReleaseFloatArrayElements arr mode);;
  match mode with
  | JNI_COPY_AND_FREE => store arr (ObjFloatArray elems);; drop_pin (PinFloats arr)
  | JNI_COMMIT =>
      j ← get_jvm;
      if decide (PinFloats arr ∈ pins j) then store arr (ObjFloatArray elems) else crash
  | JNI_ABORT => drop_pin (PinFloats arr)
  end.

Definition GetArrayLength (arr : jref) : M Z :=
  emit (E_GetArrayLength arr);;
  j ← get_jvm;
  match heap j !! arr with
  | Some (ObjByteArray bs) => mret (Z.of_nat (length bs))
  | Some (ObjFloatArray fs) => mret (Z.of_nat (length fs))
  | _ => crash
  end.

Definition GetStringUTFChars (s : jref) : M c_str :=
  emit (E_GetStringUTFChars s);;
  txt ← string_at s;
  add_pin (PinUTF s);;
  mret (Some txt).

Definition ReleaseStringUTFChars (s : jref) (chars : c_str) : M unit :=
  emit (E_ReleaseStringUTFChars s);;
  drop_pin (PinUTF s).

(** [NewStringUTF(NULL)] is the null reference. *)
Definition NewStringUTF (chars : c_str) : M jref :=
  emit (E_NewStringUTF chars);;
  match chars with
  | Some txt => allocate (ObjString txt)
  | None => mret 0
  end.

Definition DeleteLocalRef (r : jref) : M unit :=
  emit (E_DeleteLocalRef r);;
  j ← get_jvm;
  if decide (r ∈ local_refs j) then put_jvm (jvm_drop_ref r j) else crash.

Definition GetObjectClass (obj : jref) : M jref :=
  emit (E_GetObjectClass obj);;
  allocate (ObjClass obj).

Definition GetMethodID (cls : jref) (name sig : string) : M jmethodID :=
  emit (E_GetMethodID cls name sig);;
  mret {| m_name := name; m_sig := sig |}.

(** ** The asset manager (android/asset_manager.h) *)

Definition AAssetManager_fromJava (assetManager : jref) : M pointer :=
  emit (E_AAssetManager_fromJava assetManager);;
  mret (host_asset_manager assetManager).

Definition AAssetManager_open (mgr : pointer) (filename : c_str)
    (mode : asset_mode) : M pointer :=
  emit (E_AAssetManager_open mgr filename mode);;
  h ← get_host;
  let '(asset, h') := host_asset_open mgr filename mode h in
  put_host h';; mret asset.

(** [AAsset_read] answers an [int] and stores the bytes it read at
    the start of [buf]. *)
Definition AAsset_read (asset : pointer) (buf : list byte) (count : Z)
    : M (list byte * Z) :=
  emit (E_AAsset_read asset count);;
  h ← get_host;
  let '(n, data, h') := host_asset_read asset count h in
  put_host h';;
  mret (take (length buf) (data ++ drop (length data) buf), n).

Definition AAsset_getRemainingLength64 (asset : pointer) : M Z :=
  emit (E_AAsset_getRemainingLength64 asset);;
  h ← get_host;
  mret (host_asset_remaining asset h).

Definition AAsset_close (asset : pointer) : M unit :=
  emit (E_AAsset_close asset);;
  h ← get_host;
  put_host (host_asset_close asset h).

(** ** jni.c: the stream adapter *)

(** [size_t inputStreamRead(void *ctx, void *output, size_t read_size)].
    The struct behind [ctx] and the buffer behind [output] are passed
    in and handed back with the result.  [min] takes [int]s, so both
    of its arguments are converted; [size_to_copy] meets [read_size]
    as a [size_t] in the comparison, in [memcpy], in the addition to
    [offset] and in the value returned. *)
Definition inputStreamRead (ctx : input_stream_context) (output : list byte)
    (read_size : Z) : M (input_stream_context * list byte * Z) :=
  let is_ := ctx in
  avail_size ← CallIntMethod (input_stream is_) (mid_available is_) [];
  let size_to_copy := min (to_int read_size) (to_int (to_size_t a avail_size)) in
  byte_array ← NewByteArray size_to_copy;
  n_read ← CallIntMethod (input_stream is_) (mid_read is_)
             [JObj byte_array; JInt 0; JInt size_to_copy];
  (if negb (to_size_t a size_to_copy =? read_size) || negb (size_to_copy =? n_read)
   then LOGI "Insufficient Read: Req=%zu, ToCopy=%d, ActuallyRead=%d"
             [ArgSize read_size; ArgInt size_to_copy; ArgInt n_read]
   else mret tt);;
  byte_array_elements ← GetByteArrayElements byte_array;
  output' ← lift_option (memcpy output byte_array_elements (to_size_t a size_to_copy));
  ReleaseByteArrayElements byte_array byte_array_elements JNI_ABORT;;
  DeleteLocalRef byte_array;;
  let is_' := {| offset := to_size_t a (offset is_ + to_size_t a size_to_copy);
                 thiz := thiz is_; input_stream := input_stream is_;
                 mid_available := mid_available is_; mid_read := mid_read is_ |} in
  mret (is_', output', to_size_t a size_to_copy).

(** [bool inputStreamEof(void *ctx)] *)
Definition inputStreamEof (ctx : input_stream_context) : M bool :=
  let is_ := ctx in
  result ← CallIntMethod (input_stream is_) (mid_available is_) [];
  mret (result <=? 0).

(** [void inputStreamClose(void *ctx)]: empty body. *)
Definition inputStreamClose (ctx : input_stream_context) : M unit :=
  mret tt.

(** ** jni.c: the asset callbacks *)

(** [static size_t asset_read(void *ctx, void *output, size_t read_size)];
    the [int] of [AAsset_read] is converted to [size_t]. *)
Definition asset_read (ctx : pointer) (output : list byte) (read_size : Z)
    : M (list byte * Z) :=
  '(output', n) ← AAsset_read ctx output read_size;
  mret (output', to_size_t a n).

(** [static bool asset_is_eof(void *ctx)] *)
Definition asset_is_eof (ctx : pointer) : M bool :=
  remaining ← AAsset_getRemainingLength64 ctx;
  mret (remaining <=? 0).

(** [static void asset_close(void *ctx)] *)
Definition asset_close (ctx : pointer) : M unit :=
  AAsset_close ctx.

(** ** The engine (whisper.h) *)

(** Calling through the function pointers of a loader.  A callback
    applied to a context of the other kind is undefined. *)
Definition call_read (l : whisper_model_loader) (output : list byte) (n : Z)
    : M (whisper_model_loader * list byte * Z) :=
  match read l, context l with
  | fn_inputStreamRead, ctx_input_stream c =>
      '(c', output', r) ← inputStreamRead c output n;
      mret ({| context := ctx_input_stream c'; read := read l;
               eof := eof l; close := close l |}, output', r)
  | fn_asset_read, ctx_asset p =>
      '(output', r) ← asset_read p output n;
      mret (l, output', r)
  | _, _ => crash
  end.

Definition call_eof (l : whisper_model_loader) : M bool :=
  match eof l, context l with
  | fn_inputStreamEof, ctx_input_stream c => inputStreamEof c
  | fn_asset_is_eof, ctx_asset p => asset_is_eof p
  | _, _ => crash
  end.

Definition call_close (l : whisper_model_loader) : M unit :=
  match close l, context l with
  | fn_inputStreamClose, ctx_input_stream c => inputStreamClose c
  | fn_asset_close, ctx_asset p => asset_close p
  | _, _ => crash
  end.

(** The engine loading a model through [l]: it follows its script
    and the binding's callbacks answer.  The loader comes back too,
    since [inputStreamRead] writes to the struct behind it. *)
Fixpoint run_loader (l : whisper_model_loader) (s : load_script G)
    : M (whisper_model_loader * pointer * G) :=
  match s with
  | LoadRead buf n k =>
      '(l', buf', r) ← call_read l buf n;
      run_loader l' (k buf' r)
  | LoadEof k =>
      b ← call_eof l;
      run_loader l (k b)
  | LoadClose k =>
      call_close l;;
      run_loader l k
  | LoadDone ctx g => mret (l, ctx, g)
  end.

Definition whisper_context_default_params : M CP :=
  emit E_whisper_context_default_params;;
  mret eng_context_default_params.

Definition whisper_full_default_params (strategy : whisper_sampling_strategy)
    : M (whisper_full_params FP) :=
  emit (E_whisper_full_default_params strategy);;
  mret (eng_full_default_params strategy).

Definition whisper_init (loader : whisper_model_loader) : M pointer :=
  emit (E_whisper_init loader);;
  g ← get_engine;
  '(_, ctx, g') ← run_loader loader (eng_init g);
  put_engine g';; mret ctx.

Definition whisper_init_with_params (loader : whisper_model_loader) (params : CP)
    : M pointer :=
  emit (E_whisper_init_with_params loader params);;
  g ← get_engine;
  '(_, ctx, g') ← run_loader loader (eng_init_with_params params g);
  put_engine g';; mret ctx.

Definition whisper_init_from_file_with_params (path_model : c_str) (params : CP)
    : M pointer :=
  emit (E_whisper_init_from_file_with_params path_model params);;
  g ← get_engine;
  let '(ctx, g') := eng_init_from_file_with_params path_model params g in
  put_engine g';; mret ctx.

Definition whisper_free (ctx : pointer) : M unit :=
  emit (E_whisper_free ctx);;
  g ← get_engine;
  put_engine (eng_free ctx g).

Definition whisper_reset_timings (ctx : pointer) : M unit :=
  emit (E_whisper_reset_timings ctx);;
  g ← get_engine;
  put_engine (eng_reset_timings ctx g).

Definition whisper_print_timings (ctx : pointer) : M unit :=
  emit (E_whisper_print_timings ctx);;
  g ← get_engine;
  put_engine (eng_print_timings ctx g).

Definition whisper_full (ctx : pointer) (params : whisper_full_params FP)
    (samples : list jfloat) (n_samples : Z) : M Z :=
  emit (E_whisper_full ctx params samples n_samples);;
  g ← get_engine;
  let '(rc, g') := eng_full ctx params samples n_samples g in
  put_engine g';; mret rc.

Definition whisper_full_n_segments (ctx : pointer) : M Z :=
  emit (E_whisper_full_n_segments ctx);;
  g ← get_engine;
  mret (eng_full_n_segments ctx g).

Definition whisper_full_get_segment_text (ctx : pointer) (i_segment : Z) : M c_str :=
  emit (E_whisper_full_get_segment_text ctx i_segment);;
  g ← get_engine;
  mret (eng_full_get_segment_text ctx i_segment g).

Definition whisper_full_get_segment_t0 (ctx : pointer) (i_segment : Z) : M Z :=
  emit (E_whisper_full_get_segment_t0 ctx i_segment);;
  g ← get_engine;
  mret (eng_full_get_segment_t0 ctx i_segment g).

Definition whisper_full_get_segment_t1 (ctx : pointer) (i_segment : Z) : M Z :=
  emit (E_whisper_full_get_segment_t1 ctx i_segment);;
  g ← get_engine;
  mret (eng_full_get_segment_t1 ctx i_segment g).

Definition whisper_print_system_info : M c_str :=
  emit E_whisper_print_system_info;;
  g ← get_engine;
  mret (eng_print_system_info g).

Definition whisper_bench_memcpy_str (n_threads : Z) : M c_str :=
  emit (E_whisper_bench_memcpy_str n_threads);;
  g ← get_engine;
  mret (eng_bench_memcpy_str n_threads g).

Definition whisper_bench_ggml_mul_mat_str (n_threads : Z) : M c_str :=
  emit (E_whisper_bench_ggml_mul_mat_str n_threads);;
  g ← get_engine;
  mret (eng_bench_ggml_mul_mat_str n_threads g).

(** ** jni.c: handles *)

(** The casts between [struct whisper_context] pointers and [jlong]. *)
Definition jlong_of_pointer (p : pointer) : Z := to_jlong p.
Definition pointer_of_jlong (h : Z) : pointer := wrap_unsigned (size_bits a) h.

(** ** jni.c: initializers *)

Definition Java_com_whispercpp_whisper_WhisperLib_00024Companion_initContextFromInputStream
    (thiz input_stream : jref) : M Z :=
  cls ← GetObjectClass input_stream;
  mid_available ← GetMethodID cls "available" "()I";
  mid_read ← GetMethodID cls "read" "([BII)I";
  let inp_ctx := {| offset := 0; thiz := thiz; input_stream := input_stream;
                    mid_available := mid_available; mid_read := mid_read |} in
  let loader := {| context := ctx_input_stream inp_ctx;
                   read := fn_inputStreamRead;
                   eof := fn_inputStreamEof;
                   close := fn_inputStreamClose |} in
  context ← whisper_init loader;
  mret (jlong_of_pointer context).

Definition whisper_init_from_asset (assetManager : jref) (asset_path : c_str)
    : M pointer :=
  LOGI ("Loading model from asset '%s'" +:+ LF) [ArgStr asset_path];;
  asset_manager ← AAssetManager_fromJava assetManager;
  asset ← AAssetManager_open asset_manager asset_path AASSET_MODE_STREAMING;
  if asset =? NULL then
    LOGW ("Failed to open '%s'" +:+ LF) [ArgStr asset_path];;
    mret NULL
  else
    let loader := {| context := ctx_asset asset;
                     read := fn_asset_read;
                     eof := fn_asset_is_eof;
                     close := fn_asset_close |} in
    cparams ← whisper_context_default_params;
    whisper_init_with_params loader cparams.

Definition Java_com_whispercpp_whisper_WhisperLib_initContextFromAsset
    (thiz assetManager asset_path_str : jref) : M Z :=
  asset_path_chars ← GetStringUTFChars asset_path_str;
  context ← whisper_init_from_asset assetManager asset_path_chars;
  ReleaseStringUTFChars asset_path_str asset_path_chars;;
  mret (jlong_of_pointer context).

Definition Java_com_whispercpp_whisper_WhisperLib_initContext
    (thiz model_path_str : jref) : M Z :=
  model_path_chars ← GetStringUTFChars model_path_str;
  cparams ← whisper_context_default_params;
  context ← whisper_init_from_file_with_params model_path_chars cparams;
  ReleaseStringUTFChars model_path_str model_path_chars;;
  mret (jlong_of_pointer context).

(** ** jni.c: destructor *)

Definition Java_com_whispercpp_whisper_WhisperLib_Companion_freeContext
    (thiz : jref) (context_ptr : Z) : M unit :=
  let context := pointer_of_jlong context_ptr in
  whisper_free context.

(** ** jni.c: transcription *)

(** The parameter set of [fullTranscribe]: the assignments to
    [params], in the order of the source. *)
Definition transcribe_params (params : whisper_full_params FP)
    (lang_cstr : c_str) (num_threads translate : Z) : whisper_full_params FP :=
  {| fp_strategy := fp_strategy params;
     fp_translate := (translate =? JNI_TRUE);
     fp_print_realtime := false;
     fp_print_progress := false;
     fp_print_timestamps := false;
     fp_print_special := false;
     fp_language := lang_cstr;
     fp_n_threads := num_threads;
     fp_offset_ms := 0;
     fp_no_context := true;
     fp_single_segment := false;
     fp_other := fp_other params |}.

Definition Java_com_whispercpp_whisper_WhisperLib_fullTranscribe
    (clazz : jref) (context_ptr : Z) (lang_str : jref) (num_threads translate : Z)
    (audio_data : jref) : M unit :=
  let context := pointer_of_jlong context_ptr in
  audio_data_arr ← GetFloatArrayElements audio_data;
  audio_data_length ← GetArrayLength audio_data;
  lang_cstr ← GetStringUTFChars lang_str;
  LOGI "Language: %s" [ArgStr lang_cstr];;
  params ← whisper_full_default_params WHISPER_SAMPLING_GREEDY;
  let params := transcribe_params params lang_cstr num_threads translate in
  whisper_reset_timings context;;
  LOGI "About to run whisper_full" [];;
  rc ← whisper_full context params audio_data_arr audio_data_length;
  (if negb (rc =? 0) then LOGI "Failed to run the model" []
   else whisper_print_timings context);;
  ReleaseStringUTFChars lang_str lang_cstr;;
  ReleaseFloatArrayElements audio_data audio_data_arr JNI_ABORT.

(** ** jni.c: segment accessors *)

Definition Java_com_whispercpp_whisper_WhisperLib_getTextSegmentCount
    (thiz : jref) (context_ptr : Z) : M Z :=
  let context := pointer_of_jlong context_ptr in
  whisper_full_n_segments context.

Definition Java_com_whispercpp_whisper_WhisperLib_getTextSegment
    (thiz : jref) (context_ptr index : Z) : M jref :=
  let context := pointer_of_jlong context_ptr in
  text ← whisper_full_get_segment_text context index;
  string ← NewStringUTF text;
  mret string.

Definition Java_com_whispercpp_whisper_WhisperLib_getTextSegmentT0
    (thiz : jref) (context_ptr index : Z) : M Z :=
  let context := pointer_of_jlong context_ptr in
  whisper_full_get_segment_t0 context index.

Definition Java_com_whispercpp_whisper_WhisperLib_getTextSegmentT1
    (thiz : jref) (context_ptr index : Z) : M Z :=
  let context := pointer_of_jlong context_ptr in
  whisper_full_get_segment_t1 context index.

(** ** jni.c: system information and benchmarks *)

Definition Java_com_whispercpp_whisper_WhisperLib_getSystemInfo
    (thiz : jref) : M jref :=
  sysinfo ← whisper_print_system_info;
  string ← NewStringUTF sysinfo;
  mret string.

Definition Java_com_whispercpp_whisper_WhisperLib_benchMemcpy
    (thiz : jref) (n_threads : Z) : M jref :=
  bench_ggml_memcpy ← whisper_bench_memcpy_str n_threads;
  string ← NewStringUTF bench_ggml_memcpy;
  mret string.

Definition Java_com_whispercpp_whisper_WhisperLib_benchGgmlMulMat
    (thiz : jref) (n_threads : Z) : M jref :=
  bench_ggml_mul_mat ← whisper_bench_ggml_mul_mat_str n_threads;
  string ← NewStringUTF bench_ggml_mul_mat;
  mret string.

(** ** Vocabulary of the statements *)

Definition wf_stream_context (c : input_stream_context) : Prop :=
  mid_available c = MID_available /\ mid_read c = MID_read.

Definition available_count (c : input_stream_context) (w : world) : Z := (host_available (input_stream c) (w_host w)).1.

Definition size_to_copy (c : input_stream_context) (read_size : Z) (w : world) : Z :=
  min (to_int read_size) (available_count c w).

Definition stream_answer (c : input_stream_context) (read_size : Z) (w : world) : Z * list byte * H :=
  host_read (input_stream c)
    (replicate (Z.to_nat (size_to_copy c read_size w)) Byte.x00)
    0 (size_to_copy c read_size w)
    (host_available (input_stream c) (w_host w)).2.

(** [n_read], and the Java array after the stream's [read]. *)
Definition delivered (c : input_stream_context) (read_size : Z) (w : world) : Z := (stream_answer c read_size w).1.1.

Definition array_after_read (c : input_stream_context) (read_size : Z) (w : world) : list byte :=
  resize (Z.to_nat (size_to_copy c read_size w)) Byte.x00 (stream_answer c read_size w).1.2.

Definition advance (c : input_stream_context) (k : Z) : input_stream_context :=
  {| offset := to_size_t a (offset c + k); thiz := thiz c;
     input_stream := input_stream c;
     mid_available := mid_available c; mid_read := mid_read c |}.

Definition insufficient_read_log (read_size stc n_read : Z) : event FP CP :=
  E_log ANDROID_LOG_INFO TAG "Insufficient Read: Req=%zu, ToCopy=%d, ActuallyRead=%d"
    [ArgSize read_size; ArgInt stc; ArgInt n_read].

Definition read_events (c : input_stream_context) (read_size : Z) (w : world) : list (event FP CP) :=
  let stc := size_to_copy c read_size w in
  let r := new_ref (w_jvm w) in
  [E_CallIntMethod (input_stream c) MID_available [];
   E_NewByteArray stc;
   E_CallIntMethod (input_stream c) MID_read [JObj r; JInt 0; JInt stc]]
  ++ (if negb (stc =? read_size) || negb (stc =? delivered c read_size w)
      then [insufficient_read_log read_size stc (delivered c read_size w)] else [])
  ++ [E_GetByteArrayElements r; E_ReleaseByteArrayElements r JNI_ABORT;
      E_DeleteLocalRef r].

(** The world one read leaves: the filled array stays on the heap,
    unreferenced. *)
Definition read_world (c : input_stream_context) (read_size : Z) (w : world) : world :=
  {| w_jvm := jvm_store (new_ref (w_jvm w))
                (ObjByteArray (array_after_read c read_size w)) (w_jvm w);
     w_host := (stream_answer c read_size w).2;
     w_engine := w_engine w;
     w_trace := w_trace w ++ read_events c read_size w |}.

(** A run of reads through one adapter state, as the engine issues
    them while it loads: each request is a destination and a size.
    The answer is the adapter state at the end and the counts
    returned. *)
Fixpoint read_all (c : input_stream_context) (requests : list (list byte * Z))
    : M (input_stream_context * list Z) :=
  match requests with
  | [] => mret (c, [])
  | (output, read_size) :: rest =>
      '(c', _, r) ← inputStreamRead c output read_size;
      '(c'', rs) ← read_all c' rest;
      mret (c'', r :: rs)
  end.

Definition total (counts : list Z) : Z := foldr Z.add 0 counts.

Definition transcribe_engine (ctx : pointer) (params : whisper_full_params FP)
    (samples : list jfloat) (g : G) : Z * G :=
  eng_full ctx params samples (Z.of_nat (length samples)) (eng_reset_timings ctx g).

Definition transcribe_events (ctx : pointer) (params : whisper_full_params FP)
    (lang_str audio_data : jref) (lang : string) (samples : list jfloat) (rc : Z)
    : list (event FP CP) :=
  [E_GetFloatArrayElements audio_data;
   E_GetArrayLength audio_data;
   E_GetStringUTFChars lang_str;
   E_log ANDROID_LOG_INFO TAG "Language: %s" [ArgStr (Some lang)];
   E_whisper_full_default_params WHISPER_SAMPLING_GREEDY;
   E_whisper_reset_timings ctx;
   E_log ANDROID_LOG_INFO TAG "About to run whisper_full" [];
   E_whisper_full ctx params samples (Z.of_nat (length samples));
   (if rc =? 0 then E_whisper_print_timings ctx
    else E_log ANDROID_LOG_INFO TAG "Failed to run the model" []);
   E_ReleaseStringUTFChars lang_str;
   E_ReleaseFloatArrayElements audio_data JNI_ABORT].

Definition stream_loader (thiz_ stream : jref) : whisper_model_loader :=
  {| context := ctx_input_stream
                  {| offset := 0; thiz := thiz_; input_stream := stream;
                     mid_available := MID_available; mid_read := MID_read |};
     read := fn_inputStreamRead;
     eof := fn_inputStreamEof;
     close := fn_inputStreamClose |}.

Definition asset_loader (asset : pointer) : whisper_model_loader :=
  {| context := ctx_asset asset;
     read := fn_asset_read;
     eof := fn_asset_is_eof;
     close := fn_asset_close |}.

(** The world in which the engine starts loading from a stream. *)
Definition stream_init_start (thiz_ stream : jref) (w : world) : world :=
  let cls := new_ref (w_jvm w) in
  {| w_jvm := jvm_add_ref cls (jvm_store cls (ObjClass stream) (w_jvm w));
     w_host := w_host w;
     w_engine := w_engine w;
     w_trace := w_trace w ++
       [E_GetObjectClass stream;
        E_GetMethodID cls "available" "()I";
        E_GetMethodID cls "read" "([BII)I";
        E_whisper_init (stream_loader thiz_ stream)] |}.

Definition asset_open_result (assetManager : jref) (path : string) (w : world) : pointer * H :=
  host_asset_open (host_asset_manager assetManager) (Some path)
    AASSET_MODE_STREAMING (w_host w).

Definition asset_open_events (assetManager asset_path_str : jref) (path : string)
    : list (event FP CP) :=
  [E_GetStringUTFChars asset_path_str;
   E_log ANDROID_LOG_INFO TAG ("Loading model from asset '%s'" +:+ LF) [ArgStr (Some path)];
   E_AAssetManager_fromJava assetManager;
   E_AAssetManager_open (host_asset_manager assetManager) (Some path)
     AASSET_MODE_STREAMING].

(** The world in which the engine starts loading from an asset. *)
Definition asset_init_start (assetManager asset_path_str : jref) (path : string) (w : world)
    : world :=
  let asset := (asset_open_result assetManager path w).1 in
  {| w_jvm := jvm_add_pin (PinUTF asset_path_str) (w_jvm w);
     w_host := (asset_open_result assetManager path w).2;
     w_engine := w_engine w;
     w_trace := w_trace w ++ asset_open_events assetManager asset_path_str path ++
       [E_whisper_context_default_params;
        E_whisper_init_with_params (asset_loader asset) eng_context_default_params] |}.

(** ** Vocabulary of the further properties *)

Definition is_log_event (e : event FP CP) : bool :=
  match e with E_log _ _ _ _ => true | _ => false end.

Definition is_asset_event (e : event FP CP) : bool :=
  match e with
  | E_AAsset_read _ _ | E_AAsset_getRemainingLength64 _ | E_AAsset_close _ => true
  | _ => false
  end.

(** Every object of [j] is still there, unchanged, in [j']. *)
Definition heap_preserved (j j' : jvm) : Prop :=
  forall r o, heap j !! r = Some o -> heap j' !! r = Some o.

(** A loader whose callbacks are the stream adapter's, on the state [c]. *)
Definition stream_loader_at (c : input_stream_context) : whisper_model_loader :=
  {| context := ctx_input_stream c;
     read := fn_inputStreamRead;
     eof := fn_inputStreamEof;
     close := fn_inputStreamClose |}.

(** What it is for [m] to answer a new Java string holding [text]
    after the calls [calls]: a fresh, non-null reference to a new
    string object and one more local reference, or the null reference
    and an unchanged Java side for a NULL text; no object that was
    there is touched, nothing is pinned, host and engine are as
    before. *)
Definition returns_new_string (m : M jref) (calls : list (event FP CP))
    (text : c_str) (w : world) : Prop :=
  exists r w',
    m w = Some (r, w')
    /\ w_trace w' = w_trace w ++ calls ++ [E_NewStringUTF text]
    /\ w_engine w' = w_engine w /\ w_host w' = w_host w
    /\ pins (w_jvm w') = pins (w_jvm w)
    /\ heap_preserved (w_jvm w) (w_jvm w')
    /\ match text with
       | Some txt =>
           r <> 0 /\ heap (w_jvm w) !! r = None
           /\ heap (w_jvm w') !! r = Some (ObjString txt)
           /\ local_refs (w_jvm w') = r :: local_refs (w_jvm w)
       | None => r = 0 /\ w_jvm w' = w_jvm w
       end.

End Binding.

(** ** A reference host and engine

    A stream that holds a finite run of bytes, reports a count of its
    own choosing from [available()] and delivers at most [dh_chunk]
    bytes per [read]; an asset manager with a fixed set of assets; an
    engine that reads a four-byte header when it loads a model and
    whose inference run fails on demand. *)

Record demo_host := {
  dh_available : Z;
  dh_pending : list byte;
  dh_chunk : nat;
  dh_assets : list string
}.

Definition demo_deliver (len : Z) (h : demo_host) : nat :=
  Nat.min (Nat.min (Z.to_nat len) (dh_chunk h)) (length (dh_pending h)).

Definition demo_host_read (r : jref) (bs : list byte) (off len : Z) (h : demo_host)
    : Z * list byte * demo_host :=
  let k := demo_deliver len h in
  (to_int (Z.of_nat k), take k (dh_pending h) ++ drop k bs,
   {| dh_available := dh_available h - Z.of_nat k;
      dh_pending := drop k (dh_pending h);
      dh_chunk := dh_chunk h;
      dh_assets := dh_assets h |}).

Definition demo_asset_open (mgr : pointer) (path : c_str) (mode : asset_mode)
    (h : demo_host) : pointer * demo_host :=
  match path with
  | Some f => if bool_decide (f ∈ dh_assets h) then (4096, h) else (NULL, h)
  | None => (NULL, h)
  end.

Definition demo_asset_read (asset : pointer) (count : Z) (h : demo_host)
    : Z * list byte * demo_host :=
  let k := Nat.min (Z.to_nat count) (length (dh_pending h)) in
  (Z.of_nat k, take k (dh_pending h),
   {| dh_available := dh_available h;
      dh_pending := drop k (dh_pending h);
      dh_chunk := dh_chunk h;
      dh_assets := dh_assets h |}).

Definition demo_Host : Host demo_host := {|
  host_available := fun _ h => (to_int (dh_available h), h);
  host_read := demo_host_read;
  host_available_jint := fun _ h => to_int_range (dh_available h);
  host_read_jint := fun _ _ _ len h => to_int_range (Z.of_nat (demo_deliver len h));
  host_asset_manager := fun r => 256 + r;
  host_asset_open := demo_asset_open;
  host_asset_read := demo_asset_read;
  host_asset_remaining := fun _ h => Z.of_nat (length (dh_pending h));
  host_asset_close := fun _ h => h
|}.

Record demo_engine := {
  de_fail : bool;
  de_model : list byte;
  de_segments : list (string * Z * Z)
}.

Definition demo_load (g : demo_engine) : load_script demo_engine :=
  LoadRead (replicate 4 Byte.x00) 4 (fun buf r =>
  LoadEof (fun _ =>
  LoadClose
    (LoadDone (if r =? 4 then 8192 else NULL)
       {| de_fail := de_fail g; de_model := buf; de_segments := [] |}))).

Definition demo_full (ctx : pointer) (params : whisper_full_params unit)
    (samples : list jfloat) (n_samples : Z) (g : demo_engine) : Z * demo_engine :=
  if de_fail g then (1, g)
  else (0, {| de_fail := false; de_model := de_model g;
              de_segments := [("hello", 0, n_samples)] |}).

Definition demo_segment (i : Z) (g : demo_engine) : option (string * Z * Z) :=
  if i <? 0 then None else de_segments g !! Z.to_nat i.

Definition demo_default_params (s : whisper_sampling_strategy)
    : whisper_full_params unit :=
  {| fp_strategy := s; fp_n_threads := 4; fp_offset_ms := 0;
     fp_translate := false; fp_no_context := true; fp_single_segment := false;
     fp_print_special := false; fp_print_progress := true;
     fp_print_realtime := false; fp_print_timestamps := true;
     fp_language := Some "en"; fp_other := tt |}.

Definition demo_Engine : Engine demo_engine unit bool := {|
  eng_full_default_params := demo_default_params;
  eng_context_default_params := true;
  eng_init := demo_load;
  eng_init_with_params := fun _ => demo_load;
  eng_init_from_file_with_params := fun path _ g =>
    (if decide (path = Some "model.bin") then 8192 else NULL, g);
  eng_free := fun _ g => {| de_fail := de_fail g; de_model := []; de_segments := [] |};
  eng_reset_timings := fun _ g => g;
  eng_print_timings := fun _ g => g;
  eng_full := demo_full;
  eng_full_n_segments := fun _ g => Z.of_nat (length (de_segments g));
  eng_full_get_segment_text := fun _ i g => fst <$> (fst <$> demo_segment i g);
  eng_full_get_segment_t0 := fun _ i g => default 0 (snd <$> (fst <$> demo_segment i g));
  eng_full_get_segment_t1 := fun _ i g => default 0 (snd <$> demo_segment i g);
  eng_print_system_info := fun _ => Some "NEON = 1";
  eng_bench_memcpy_str := fun _ _ => Some "memcpy";
  eng_bench_ggml_mul_mat_str := fun _ _ => Some "mul_mat"
|}.

(** Java objects of the reference world: 1 a language code, 2 one
    second's worth of three samples, 3 a stream, 4 an asset manager,
    5 and 6 asset paths, 7 a model path. *)
Definition demo_heap : gmap Z jobject_data :=
  list_to_map
    [(1, ObjString "en"); (2, ObjFloatArray [0; 0; 0]); (3, ObjOther);
     (4, ObjOther); (5, ObjString "models/ggml-base.bin");
     (6, ObjString "models/missing.bin"); (7, ObjString "model.bin")].

Definition demo_stream (available : Z) (chunk : nat) : demo_host :=
  {| dh_available := available;
     dh_pending := [Byte.x67; Byte.x67; Byte.x6d; Byte.x6c; Byte.x01; Byte.x02; Byte.x03];
     dh_chunk := chunk;
     dh_assets := ["models/ggml-base.bin"] |}.

Definition demo_world (h : demo_host) (fail : bool) : @world demo_host demo_engine unit bool :=
  {| w_jvm := {| heap := demo_heap; local_refs := []; pins := [] |};
     w_host := h;
     w_engine := {| de_fail := fail; de_model := []; de_segments := [] |};
     w_trace := [] |}.

Definition demo_context : input_stream_context :=
  {| offset := 0; thiz := 0; input_stream := 3;
     mid_available := MID_available; mid_read := MID_read |}.

(** A host on which everything fails: [available()] and [read]
    answer -1, assets open but [AAsset_read] answers -1. *)
Lemma is_jint_minus_1 : is_jint (-1).
Proof. unfold is_jint. lia. Qed.

Definition failing_Host : Host unit := {|
  host_available := fun _ h => (-1, h);
  host_read := fun _ bs _ _ h => (-1, bs, h);
  host_available_jint := fun _ _ => is_jint_minus_1;
  host_read_jint := fun _ _ _ _ _ => is_jint_minus_1;
  host_asset_manager := fun r => 256 + r;
  host_asset_open := fun _ _ _ h => (4096, h);
  host_asset_read := fun _ _ h => (-1, [], h);
  host_asset_remaining := fun _ _ => 0;
  host_asset_close := fun _ h => h
|}.

Definition failing_world : @world unit demo_engine unit bool :=
  {| w_jvm := {| heap := demo_heap; local_refs := []; pins := [] |};
     w_host := tt;
     w_engine := {| de_fail := false; de_model := []; de_segments := [] |};
     w_trace := [] |}.

(** An engine that holds several contexts at once, each with its own
    segments: what it answers depends on the context pointer it is
    called with, and [whisper_free] drops that context only. *)
Definition keyed_engine := list (pointer * list (string * Z * Z)).

Fixpoint keyed_segments (ctx : pointer) (g : keyed_engine) : list (string * Z * Z) :=
  match g with
  | [] => []
  | (p, segments) :: g' => if p =? ctx then segments else keyed_segments ctx g'
  end.

Fixpoint keyed_free (ctx : pointer) (g : keyed_engine) : keyed_engine :=
  match g with
  | [] => []
  | (p, segments) :: g' =>
      if p =? ctx then keyed_free ctx g' else (p, segments) :: keyed_free ctx g'
  end.

Definition keyed_segment (ctx : pointer) (i : Z) (g : keyed_engine)
    : option (string * Z * Z) :=
  if i <? 0 then None else keyed_segments ctx g !! Z.to_nat i.

Definition keyed_Engine : Engine keyed_engine unit bool := {|
  eng_full_default_params := demo_default_params;
  eng_context_default_params := true;
  eng_init := fun g => LoadDone NULL g;
  eng_init_with_params := fun _ g => LoadDone NULL g;
  eng_init_from_file_with_params := fun _ _ g => (NULL, g);
  eng_free := keyed_free;
  eng_reset_timings := fun _ g => g;
  eng_print_timings := fun _ g => g;
  eng_full := fun _ _ _ _ g => (1, g);
  eng_full_n_segments := fun ctx g => Z.of_nat (length (keyed_segments ctx g));
  eng_full_get_segment_text := fun ctx i g => fst <$> (fst <$> keyed_segment ctx i g);
  eng_full_get_segment_t0 := fun ctx i g =>
    default 0 (snd <$> (fst <$> keyed_segment ctx i g));
  eng_full_get_segment_t1 := fun ctx i g => default 0 (snd <$> keyed_segment ctx i g);
  eng_print_system_info := fun _ => Some "NEON = 1";
  eng_bench_memcpy_str := fun _ _ => Some "memcpy";
  eng_bench_ggml_mul_mat_str := fun _ _ => Some "mul_mat"
|}.

(** Two contexts: at 4096 with two segments, at 8192 with one. *)
Definition keyed_world : @world demo_host keyed_engine unit bool :=
  {| w_jvm := {| heap := demo_heap; local_refs := []; pins := [] |};
     w_host := demo_stream 7 3;
     w_engine := [(4096, [("un", 0, 1); ("deux", 1, 2)]); (8192, [("hello", 0, 3)])];
     w_trace := [] |}.

Section Properties.
Context (a : abi).
Context {H : Type} `{!Host H}.
Context {G FP CP : Type} `{!Engine G FP CP}.
Implicit Types (w : @world H G FP CP) (c : input_stream_context).

Lemma run_bind {A B} (m : M A) (f : A -> M B) w x w' :
  m w = Some (x, w') -> (m ≫= f) w = f x w'.
Proof. intros E. unfold mbind, M_bind. rewrite E. reflexivity. Qed.

Lemma CallIntMethod_available obj w :
  CallIntMethod obj MID_available [] w =
  Some ((host_available obj (w_host w)).1,
        set_host (host_available obj (w_host w)).2
          (record_event (E_CallIntMethod obj MID_available []) w)).
Proof.
  unfold CallIntMethod.
  rewrite (run_bind _ _ _ tt (record_event (E_CallIntMethod obj MID_available []) w))
    by reflexivity.
  rewrite decide_True by reflexivity.
  unfold mbind, M_bind, get_host. cbn.
  destruct (host_available obj (w_host w)) as [n h']. reflexivity.
Qed.

(** *** How the JNI functions run *)

Lemma emit_run (e : event FP CP) w : emit e w = Some (tt, record_event e w).
Proof. reflexivity. Qed.

Lemma remove_first_head {A} `{EqDecision A} (x : A) l : remove_first x (x :: l) = l.
Proof. simpl. rewrite decide_True; reflexivity. Qed.

Ltac world_simpl :=
  unfold set_jvm, set_host, set_engine, record_event,
    jvm_store, jvm_add_ref, jvm_drop_ref, jvm_add_pin, jvm_drop_pin;
  cbn [w_jvm w_host w_engine w_trace heap local_refs pins];
  rewrite ?remove_first_head.

(** One statement of the program: run it with [tac], then flatten the
    world it leaves. *)
Tactic Notation "step" tactic3(tac) := (erewrite run_bind by tac); world_simpl.

Lemma NewByteArray_run n w :
  0 <= n ->
  NewByteArray n w =
  Some (new_ref (w_jvm w),
        set_jvm (jvm_add_ref (new_ref (w_jvm w))
                   (jvm_store (new_ref (w_jvm w))
                      (ObjByteArray (replicate (Z.to_nat n) Byte.x00)) (w_jvm w)))
          (record_event (E_NewByteArray n) w)).
Proof.
  intros Hn. unfold NewByteArray.
  erewrite run_bind by apply emit_run.
  destruct (Z.ltb_spec n 0); [lia|]. reflexivity.
Qed.

Lemma NewByteArray_negative n w : n < 0 -> NewByteArray n w = None.
Proof.
  intros Hn. unfold NewByteArray.
  erewrite run_bind by apply emit_run.
  destruct (Z.ltb_spec n 0); [reflexivity|lia].
Qed.

Lemma CallIntMethod_read obj arr len bs w :
  heap (w_jvm w) !! arr = Some (ObjByteArray bs) ->
  CallIntMethod obj MID_read [JObj arr; JInt 0; JInt len] w =
  Some ((host_read obj bs 0 len (w_host w)).1.1,
        set_jvm (jvm_store arr
                   (ObjByteArray (resize (length bs) Byte.x00
                                    (host_read obj bs 0 len (w_host w)).1.2))
                   (w_jvm w))
          (set_host (host_read obj bs 0 len (w_host w)).2
             (record_event (E_CallIntMethod obj MID_read [JObj arr; JInt 0; JInt len]) w))).
Proof.
  intros Hb. unfold CallIntMethod.
  erewrite run_bind by apply emit_run.
  rewrite decide_False by discriminate.
  rewrite decide_True by reflexivity.
  unfold byte_array_at, mbind, M_bind, get_jvm, get_host. cbn. rewrite Hb. cbn.
  destruct (host_read obj bs 0 len (w_host w)) as [[k bs'] h']. reflexivity.
Qed.

Lemma GetByteArrayElements_run arr bs w :
  heap (w_jvm w) !! arr = Some (ObjByteArray bs) ->
  GetByteArrayElements arr w =
  Some (bs, set_jvm (jvm_add_pin (PinBytes arr) (w_jvm w))
              (record_event (E_GetByteArrayElements arr) w)).
Proof.
  intros Hb. unfold GetByteArrayElements.
  erewrite run_bind by apply emit_run.
  unfold byte_array_at, add_pin, mbind, M_bind, get_jvm. cbn. rewrite Hb. reflexivity.
Qed.

Lemma drop_pin_run p w :
  p ∈ pins (w_jvm w) -> drop_pin p w = Some (tt, set_jvm (jvm_drop_pin p (w_jvm w)) w).
Proof.
  intros Hp. unfold drop_pin, mbind, M_bind, get_jvm.
  rewrite decide_True by exact Hp. reflexivity.
Qed.

Lemma ReleaseByteArrayElements_abort arr elems w :
  PinBytes arr ∈ pins (w_jvm w) ->
  ReleaseByteArrayElements arr elems JNI_ABORT w =
  Some (tt, set_jvm (jvm_drop_pin (PinBytes arr) (w_jvm w))
              (record_event (E_ReleaseByteArrayElements arr JNI_ABORT) w)).
Proof.
  intros Hp. unfold ReleaseByteArrayElements.
  erewrite run_bind by apply emit_run.
  rewrite drop_pin_run by exact Hp. reflexivity.
Qed.

Lemma DeleteLocalRef_run r w :
  r ∈ local_refs (w_jvm w) ->
  DeleteLocalRef r w =
  Some (tt, set_jvm (jvm_drop_ref r (w_jvm w)) (record_event (E_DeleteLocalRef r) w)).
Proof.
  intros Hr. unfold DeleteLocalRef.
  erewrite run_bind by apply emit_run.
  unfold mbind, M_bind, get_jvm. cbn. rewrite decide_True by exact Hr. reflexivity.
Qed.

Lemma memcpy_run dst src n :
  0 <= n -> n <= Z.of_nat (length src) -> n <= Z.of_nat (length dst) ->
  memcpy dst src n = Some (take (Z.to_nat n) src ++ drop (Z.to_nat n) dst).
Proof.
  intros H0 H1 H2. unfold memcpy.
  destruct (Z.leb_spec 0 n); [|lia].
  destruct (Z.leb_spec n (Z.of_nat (length src))); [|lia].
  destruct (Z.leb_spec n (Z.of_nat (length dst))); [|lia].
  reflexivity.
Qed.

Lemma min_jint x y : is_jint x -> is_jint y -> is_jint (min x y).
Proof. unfold min. intros Hx Hy. destruct (x <? y); assumption. Qed.

Lemma jint_nonneg_size_t z : is_jint z -> 0 <= z -> to_size_t a z = z.
Proof.
  intros [_ Hz] H0. apply to_size_t_id. unfold is_size_t.
  split; [exact H0|]. destruct a; simpl; lia.
Qed.

(** *** One read through the stream adapter *)

Lemma size_to_copy_jint c n w : is_jint (size_to_copy c n w).
Proof. apply min_jint; [apply to_int_range | apply host_available_jint]. Qed.

Lemma new_ref_fresh (j : jvm) : heap j !! new_ref j = None.
Proof.
  unfold new_ref. apply not_elem_of_dom.
  pose proof (is_fresh ({[0]} ∪ dom (heap j))) as Hf. set_solver.
Qed.

(** The whole of one read, for a size to copy that is not negative:
    everything but [memcpy] is defined. *)
Lemma inputStreamRead_eq c out n w :
  wf_stream_context c ->
  0 <= size_to_copy c n w ->
  inputStreamRead a c out n w =
  match memcpy out (array_after_read c n w) (size_to_copy c n w) with
  | Some out' =>
      Some ((advance a c (size_to_copy c n w), out', size_to_copy c n w),
            read_world c n w)
  | None => None
  end.
Proof.
  intros [Ha Hr] Hn. unfold inputStreamRead. rewrite Ha, Hr.
  step (apply CallIntMethod_available).
  fold (available_count c w).
  rewrite (to_int_to_size_t a) by apply host_available_jint.
  fold (size_to_copy c n w).
  pose proof (size_to_copy_jint c n w) as Hj.
  rewrite (jint_nonneg_size_t _ Hj Hn).
  unfold read_world, read_events, insufficient_read_log, array_after_read, delivered,
    stream_answer.
  set (stc := size_to_copy c n w) in *.
  set (r := new_ref (w_jvm w)).
  set (ans := host_read (input_stream c) (replicate (Z.to_nat stc) Byte.x00) 0 stc
                (host_available (input_stream c) (w_host w)).2).
  set (arr := resize (Z.to_nat stc) Byte.x00 ans.1.2).
  step (apply NewByteArray_run; exact Hn). fold r.
  step (apply CallIntMethod_read; cbn; apply lookup_insert_eq).
  rewrite length_replicate. fold ans arr. rewrite insert_insert_eq.
  assert (Hcond : forall (b : bool) f l
                    (k : unit -> M (input_stream_context * list byte * Z)) w0,
             ((if b then LOGI f l else mret tt) ≫= k) w0 =
             k tt (if b then record_event (E_log ANDROID_LOG_INFO TAG f l) w0 else w0))
    by (intros [] ? ? ? ?; reflexivity).
  rewrite Hcond. clear Hcond.
  destruct (negb (stc =? n) || negb (stc =? ans.1.1)); world_simpl.
  all: step (apply (GetByteArrayElements_run r arr); cbn; apply lookup_insert_eq).
  all: destruct (memcpy out arr stc) as [out'|]; [|reflexivity]; cbn [lift_option].
  all: step reflexivity.
  all: step (apply ReleaseByteArrayElements_abort; cbn; apply list_elem_of_here).
  all: step (apply DeleteLocalRef_run; cbn; apply list_elem_of_here).
  all: unfold mret, M_ret, advance, jvm_store; rewrite Ha, Hr.
  all: rewrite <- !app_assoc; reflexivity.
Qed.

Lemma inputStreamRead_run c out n w :
  wf_stream_context c ->
  0 <= size_to_copy c n w ->
  size_to_copy c n w <= Z.of_nat (length out) ->
  exists w',
    inputStreamRead a c out n w =
      Some ((advance a c (size_to_copy c n w),
             array_after_read c n w ++ drop (Z.to_nat (size_to_copy c n w)) out,
             size_to_copy c n w), w')
    /\ w_jvm w' = jvm_store (new_ref (w_jvm w)) (ObjByteArray (array_after_read c n w)) (w_jvm w)
    /\ w_host w' = (stream_answer c n w).2
    /\ w_engine w' = w_engine w
    /\ w_trace w' = w_trace w ++ read_events c n w.
Proof.
  intros Hc Hn Hlen. exists (read_world c n w).
  rewrite inputStreamRead_eq by assumption.
  assert (Harr : length (array_after_read c n w) = Z.to_nat (size_to_copy c n w))
    by apply length_resize.
  rewrite memcpy_run by lia.
  rewrite firstn_all2 by lia.
  repeat split.
Qed.

Lemma inputStreamRead_aborts c out n w :
  wf_stream_context c -> size_to_copy c n w < 0 -> inputStreamRead a c out n w = None.
Proof.
  intros [Ha Hr] Hn. unfold inputStreamRead. rewrite Ha, Hr.
  erewrite run_bind by apply CallIntMethod_available.
  fold (available_count c w).
  rewrite (to_int_to_size_t a) by apply host_available_jint.
  fold (size_to_copy c n w).
  unfold mbind at 1. unfold M_bind.
  rewrite NewByteArray_negative by exact Hn. reflexivity.
Qed.

(** *** How strings and sample arrays are borrowed and returned *)

Lemma GetFloatArrayElements_run arr fs w :
  heap (w_jvm w) !! arr = Some (ObjFloatArray fs) ->
  GetFloatArrayElements arr w =
  Some (fs, set_jvm (jvm_add_pin (PinFloats arr) (w_jvm w))
              (record_event (E_GetFloatArrayElements arr) w)).
Proof.
  intros Hb. unfold GetFloatArrayElements.
  erewrite run_bind by apply emit_run.
  unfold float_array_at, add_pin, mbind, M_bind, get_jvm. cbn. rewrite Hb. reflexivity.
Qed.

Lemma GetArrayLength_floats arr fs w :
  heap (w_jvm w) !! arr = Some (ObjFloatArray fs) ->
  GetArrayLength arr w =
  Some (Z.of_nat (length fs), record_event (E_GetArrayLength arr) w).
Proof.
  intros Hb. unfold GetArrayLength.
  erewrite run_bind by apply emit_run.
  unfold mbind, M_bind, get_jvm. cbn. rewrite Hb. reflexivity.
Qed.

Lemma GetStringUTFChars_run r txt w :
  heap (w_jvm w) !! r = Some (ObjString txt) ->
  GetStringUTFChars r w =
  Some (Some txt, set_jvm (jvm_add_pin (PinUTF r) (w_jvm w))
                    (record_event (E_GetStringUTFChars r) w)).
Proof.
  intros Hb. unfold GetStringUTFChars.
  erewrite run_bind by apply emit_run.
  unfold string_at, add_pin, mbind, M_bind, get_jvm. cbn. rewrite Hb. reflexivity.
Qed.

Lemma ReleaseStringUTFChars_run r chars w :
  PinUTF r ∈ pins (w_jvm w) ->
  ReleaseStringUTFChars r chars w =
  Some (tt, set_jvm (jvm_drop_pin (PinUTF r) (w_jvm w))
              (record_event (E_ReleaseStringUTFChars r) w)).
Proof.
  intros Hp. unfold ReleaseStringUTFChars.
  erewrite run_bind by apply emit_run.
  rewrite drop_pin_run by exact Hp. reflexivity.
Qed.

Lemma ReleaseFloatArrayElements_abort arr elems w :
  PinFloats arr ∈ pins (w_jvm w) ->
  ReleaseFloatArrayElements arr elems JNI_ABORT w =
  Some (tt, set_jvm (jvm_drop_pin (PinFloats arr) (w_jvm w))
              (record_event (E_ReleaseFloatArrayElements arr JNI_ABORT) w)).
Proof.
  intros Hp. unfold ReleaseFloatArrayElements.
  erewrite run_bind by apply emit_run.
  rewrite drop_pin_run by exact Hp. reflexivity.
Qed.

Lemma NewStringUTF_run chars w :
  NewStringUTF chars w =
  Some (match chars with
        | Some txt =>
            (new_ref (w_jvm w),
             set_jvm (jvm_add_ref (new_ref (w_jvm w))
                        (jvm_store (new_ref (w_jvm w)) (ObjString txt) (w_jvm w)))
               (record_event (E_NewStringUTF chars) w))
        | None => (0, record_event (E_NewStringUTF chars) w)
        end).
Proof.
  unfold NewStringUTF.
  erewrite run_bind by apply emit_run.
  destruct chars; reflexivity.
Qed.

Lemma whisper_full_run ctx params samples k w :
  whisper_full ctx params samples k w =
  Some ((eng_full ctx params samples k (w_engine w)).1,
        set_engine (eng_full ctx params samples k (w_engine w)).2
          (record_event (E_whisper_full ctx params samples k) w)).
Proof.
  unfold whisper_full.
  erewrite run_bind by apply emit_run.
  unfold mbind, M_bind, get_engine. cbn.
  destruct (eng_full ctx params samples k (w_engine w)). reflexivity.
Qed.

Lemma jvm_pin_roundtrip p q (j : jvm) :
  jvm_drop_pin p (jvm_drop_pin q (jvm_add_pin q (jvm_add_pin p j))) = j.
Proof.
  destruct j as [hp lr ps]. unfold jvm_drop_pin, jvm_add_pin.
  cbn [heap local_refs pins]. rewrite !remove_first_head. reflexivity.
Qed.

(** *** One transcription *)

Lemma fullTranscribe_run clazz h lang_str num_threads translate audio_data lang samples w :
  heap (w_jvm w) !! audio_data = Some (ObjFloatArray samples) ->
  heap (w_jvm w) !! lang_str = Some (ObjString lang) ->
  let ctx := pointer_of_jlong a h in
  let params := transcribe_params (eng_full_default_params WHISPER_SAMPLING_GREEDY)
                  (Some lang) num_threads translate in
  let r := transcribe_engine ctx params samples (w_engine w) in
  Java_com_whispercpp_whisper_WhisperLib_fullTranscribe a clazz h lang_str
    num_threads translate audio_data w =
  Some (tt, {| w_jvm := w_jvm w; w_host := w_host w;
               w_engine := if r.1 =? 0 then eng_print_timings ctx r.2 else r.2;
               w_trace := w_trace w ++
                 transcribe_events ctx params lang_str audio_data lang samples r.1 |}).
Proof.
  intros Haudio Hlang ctx params r.
  unfold Java_com_whispercpp_whisper_WhisperLib_fullTranscribe.
  step (apply GetFloatArrayElements_run; exact Haudio).
  step (apply GetArrayLength_floats; exact Haudio).
  step (apply GetStringUTFChars_run; exact Hlang).
  step reflexivity.
  step reflexivity.
  step reflexivity.
  step reflexivity.
  step (apply whisper_full_run).
  fold ctx params. fold (transcribe_engine ctx params samples (w_engine w)). fold r.
  unfold transcribe_events.
  destruct (r.1 =? 0); cbn [negb].
  all: step reflexivity.
  all: step (apply ReleaseStringUTFChars_run; world_simpl; apply list_elem_of_here).
  all: rewrite ReleaseFloatArrayElements_abort by (world_simpl; apply list_elem_of_here).
  all: do 2 f_equal; world_simpl.
  all: destruct (w_jvm w); cbn [app]; rewrite <- ?app_assoc; reflexivity.
Qed.

(** *** Initializers *)

Lemma GetObjectClass_run obj w :
  GetObjectClass obj w =
  Some (new_ref (w_jvm w),
        set_jvm (jvm_add_ref (new_ref (w_jvm w))
                   (jvm_store (new_ref (w_jvm w)) (ObjClass obj) (w_jvm w)))
          (record_event (E_GetObjectClass obj) w)).
Proof. unfold GetObjectClass. erewrite run_bind by apply emit_run. reflexivity. Qed.

Lemma GetMethodID_run cls name sig w :
  GetMethodID cls name sig w =
  Some ({| m_name := name; m_sig := sig |}, record_event (E_GetMethodID cls name sig) w).
Proof. unfold GetMethodID. erewrite run_bind by apply emit_run. reflexivity. Qed.

Lemma get_engine_run w : get_engine w = Some (w_engine w, w).
Proof. reflexivity. Qed.

Lemma LOGI_run fmt args w :
  LOGI fmt args w = Some (tt, record_event (E_log ANDROID_LOG_INFO TAG fmt args) w).
Proof. reflexivity. Qed.

Lemma LOGW_run fmt args w :
  LOGW fmt args w = Some (tt, record_event (E_log ANDROID_LOG_WARN TAG fmt args) w).
Proof. reflexivity. Qed.

Lemma AAssetManager_fromJava_run mgr w :
  AAssetManager_fromJava mgr w =
  Some (host_asset_manager mgr, record_event (E_AAssetManager_fromJava mgr) w).
Proof. unfold AAssetManager_fromJava. erewrite run_bind by apply emit_run. reflexivity. Qed.

Lemma whisper_context_default_params_run w :
  whisper_context_default_params w =
  Some (eng_context_default_params, record_event E_whisper_context_default_params w).
Proof.
  unfold whisper_context_default_params. erewrite run_bind by apply emit_run. reflexivity.
Qed.


Lemma initContextFromInputStream_run thiz_ stream w l' ctx g' w2 :
  run_loader a (stream_loader thiz_ stream) (eng_init (w_engine w))
    (stream_init_start thiz_ stream w) = Some ((l', ctx, g'), w2) ->
  Java_com_whispercpp_whisper_WhisperLib_00024Companion_initContextFromInputStream
    a thiz_ stream w = Some (jlong_of_pointer ctx, set_engine g' w2).
Proof.
  intros Hrun.
  unfold Java_com_whispercpp_whisper_WhisperLib_00024Companion_initContextFromInputStream.
  step (apply GetObjectClass_run).
  step (apply GetMethodID_run).
  step (apply GetMethodID_run).
  fold MID_available MID_read. fold (stream_loader thiz_ stream).
  unfold whisper_init.
  erewrite run_bind.
  2:{ step (apply emit_run).
      step (apply get_engine_run).
      rewrite <- !app_assoc. cbn [app].
      erewrite run_bind by exact Hrun.
      reflexivity. }
  reflexivity.
Qed.

Lemma AAssetManager_open_run mgr path mode w :
  AAssetManager_open mgr path mode w =
  Some ((host_asset_open mgr path mode (w_host w)).1,
        set_host (host_asset_open mgr path mode (w_host w)).2
          (record_event (E_AAssetManager_open mgr path mode) w)).
Proof.
  unfold AAssetManager_open.
  erewrite run_bind by apply emit_run.
  unfold mbind, M_bind, get_host. cbn.
  destruct (host_asset_open mgr path mode (w_host w)). reflexivity.
Qed.

Lemma initContextFromAsset_open_fails thiz_ assetManager asset_path_str path w :
  heap (w_jvm w) !! asset_path_str = Some (ObjString path) ->
  (asset_open_result assetManager path w).1 = NULL ->
  Java_com_whispercpp_whisper_WhisperLib_initContextFromAsset
    a thiz_ assetManager asset_path_str w =
  Some (0, {| w_jvm := w_jvm w;
              w_host := (asset_open_result assetManager path w).2;
              w_engine := w_engine w;
              w_trace := w_trace w ++ asset_open_events assetManager asset_path_str path ++
                [E_log ANDROID_LOG_WARN TAG ("Failed to open '%s'" +:+ LF) [ArgStr (Some path)];
                 E_ReleaseStringUTFChars asset_path_str] |}).
Proof.
  intros Hpath Hnull.
  unfold Java_com_whispercpp_whisper_WhisperLib_initContextFromAsset.
  step (apply GetStringUTFChars_run; exact Hpath).
  erewrite run_bind.
  2:{ unfold whisper_init_from_asset.
      step (apply LOGI_run).
      step (apply AAssetManager_fromJava_run).
      step (apply AAssetManager_open_run).
      fold (asset_open_result assetManager path w).
      rewrite Hnull. cbn [Z.eqb NULL].
      step (apply LOGW_run).
      reflexivity. }
  world_simpl.
  step (apply ReleaseStringUTFChars_run; world_simpl; apply list_elem_of_here).
  unfold mret, M_ret, jlong_of_pointer. do 2 f_equal.
  destruct (w_jvm w). unfold asset_open_events. cbn [app].
  rewrite <- ?app_assoc. reflexivity.
Qed.

(** The asset callbacks leave the Java side and the engine alone. *)
Lemma run_loader_asset_frame asset (s : load_script G) w l' ctx g' w2 :
  run_loader a (asset_loader asset) s w = Some ((l', ctx, g'), w2) ->
  w_jvm w2 = w_jvm w /\ w_engine w2 = w_engine w.
Proof.
  revert w. induction s as [buf n k IH | k IH | k IH | c0 g0]; intros w Hrun.
  - cbn [run_loader] in Hrun.
    unfold call_read, asset_loader, asset_read, AAsset_read in Hrun.
    cbn [read context] in Hrun.
    unfold mbind, M_bind, mret, M_ret, emit, get_host, put_host in Hrun.
    destruct (host_asset_read asset n (w_host (record_event (E_AAsset_read asset n) w)))
      as [[k0 data] h'].
    apply IH in Hrun. exact Hrun.
  - cbn [run_loader] in Hrun.
    unfold call_eof, asset_loader, asset_is_eof, AAsset_getRemainingLength64 in Hrun.
    cbn [eof context] in Hrun.
    unfold mbind, M_bind, mret, M_ret, emit, get_host in Hrun.
    apply IH in Hrun. exact Hrun.
  - cbn [run_loader] in Hrun.
    unfold call_close, asset_loader, asset_close, AAsset_close in Hrun.
    cbn [close context] in Hrun.
    unfold mbind, M_bind, emit, get_host, put_host in Hrun.
    apply IH in Hrun. exact Hrun.
  - cbn in Hrun. injection Hrun as <- <- <- <-. split; reflexivity.
Qed.

Lemma initContextFromAsset_open_succeeds thiz_ assetManager asset_path_str path w
    l' ctx g' w2 :
  heap (w_jvm w) !! asset_path_str = Some (ObjString path) ->
  (asset_open_result assetManager path w).1 <> NULL ->
  run_loader a (asset_loader (asset_open_result assetManager path w).1)
    (eng_init_with_params eng_context_default_params (w_engine w))
    (asset_init_start assetManager asset_path_str path w) = Some ((l', ctx, g'), w2) ->
  Java_com_whispercpp_whisper_WhisperLib_initContextFromAsset
    a thiz_ assetManager asset_path_str w =
  Some (jlong_of_pointer ctx,
        {| w_jvm := w_jvm w; w_host := w_host w2; w_engine := g';
           w_trace := w_trace w2 ++ [E_ReleaseStringUTFChars asset_path_str] |}).
Proof.
  intros Hpath Hopen Hrun.
  destruct (run_loader_asset_frame _ _ _ _ _ _ _ Hrun) as [Hjvm _].
  unfold Java_com_whispercpp_whisper_WhisperLib_initContextFromAsset.
  step (apply GetStringUTFChars_run; exact Hpath).
  erewrite run_bind.
  2:{ unfold whisper_init_from_asset.
      step (apply LOGI_run).
      step (apply AAssetManager_fromJava_run).
      step (apply AAssetManager_open_run).
      fold (asset_open_result assetManager path w).
      destruct (Z.eqb_spec (asset_open_result assetManager path w).1 NULL) as [E|_];
        [contradiction|].
      step (apply whisper_context_default_params_run).
      fold (asset_loader (asset_open_result assetManager path w).1).
      unfold whisper_init_with_params.
      step (apply emit_run).
      step (apply get_engine_run).
      erewrite run_bind.
      2:{ unfold asset_init_start, asset_open_events, jvm_add_pin in Hrun.
          cbn [app heap local_refs pins] in Hrun.
          rewrite <- ?app_assoc. cbn [app]. exact Hrun. }
      reflexivity. }
  world_simpl.
  erewrite run_bind.
  2:{ apply ReleaseStringUTFChars_run. rewrite Hjvm.
      unfold asset_init_start. world_simpl. apply list_elem_of_here. }
  unfold mret, M_ret. do 2 f_equal. world_simpl. rewrite Hjvm.
  unfold asset_init_start. world_simpl. destruct (w_jvm w). reflexivity.
Qed.

Lemma whisper_init_from_file_with_params_run path cp w :
  whisper_init_from_file_with_params path cp w =
  Some ((eng_init_from_file_with_params path cp (w_engine w)).1,
        set_engine (eng_init_from_file_with_params path cp (w_engine w)).2
          (record_event (E_whisper_init_from_file_with_params path cp) w)).
Proof.
  unfold whisper_init_from_file_with_params.
  erewrite run_bind by apply emit_run.
  unfold mbind, M_bind, get_engine. cbn.
  destruct (eng_init_from_file_with_params path cp (w_engine w)). reflexivity.
Qed.

Lemma initContext_run thiz_ model_path_str path w :
  heap (w_jvm w) !! model_path_str = Some (ObjString path) ->
  let r := eng_init_from_file_with_params (Some path) eng_context_default_params
             (w_engine w) in
  Java_com_whispercpp_whisper_WhisperLib_initContext thiz_ model_path_str w =
  Some (jlong_of_pointer r.1,
        {| w_jvm := w_jvm w; w_host := w_host w; w_engine := r.2;
           w_trace := w_trace w ++
             [E_GetStringUTFChars model_path_str;
              E_whisper_context_default_params;
              E_whisper_init_from_file_with_params (Some path) eng_context_default_params;
              E_ReleaseStringUTFChars model_path_str] |}).
Proof.
  intros Hpath r.
  unfold Java_com_whispercpp_whisper_WhisperLib_initContext.
  step (apply GetStringUTFChars_run; exact Hpath).
  step (apply whisper_context_default_params_run).
  step (apply whisper_init_from_file_with_params_run).
  fold r.
  step (apply ReleaseStringUTFChars_run; world_simpl; apply list_elem_of_here).
  unfold mret, M_ret. do 2 f_equal.
  destruct (w_jvm w). rewrite <- ?app_assoc. reflexivity.
Qed.


(** What a read that returns has returned. *)
Lemma inputStreamRead_returns c out n w r w' :
  wf_stream_context c ->
  inputStreamRead a c out n w = Some (r, w') ->
  0 <= size_to_copy c n w <= Z.of_nat (length out)
  /\ r = (advance a c (size_to_copy c n w),
          array_after_read c n w ++ drop (Z.to_nat (size_to_copy c n w)) out,
          size_to_copy c n w)
  /\ w' = read_world c n w.
Proof.
  intros Hc Hrun.
  destruct (Z_lt_le_dec (size_to_copy c n w) 0) as [Hneg|Hpos].
  { rewrite inputStreamRead_aborts in Hrun by assumption. discriminate. }
  rewrite inputStreamRead_eq in Hrun by assumption.
  assert (Harr : length (array_after_read c n w) = Z.to_nat (size_to_copy c n w))
    by apply length_resize.
  unfold memcpy in Hrun.
  destruct (Z.leb_spec 0 (size_to_copy c n w)); [|lia].
  destruct (Z.leb_spec (size_to_copy c n w) (Z.of_nat (length (array_after_read c n w))));
    [|lia].
  destruct (Z.leb_spec (size_to_copy c n w) (Z.of_nat (length out)));
    cbn [andb] in Hrun; [|discriminate].
  injection Hrun as <- <-.
  rewrite firstn_all2 by lia. repeat split; lia.
Qed.

(** X3. The returned count and the new offset are decided by the request
    and the reported count alone: two streams that report the same
    count get the same answer, whatever each then delivers. *)
Lemma read_count_ignores_delivery c out n w1 w2 r1 r2 w1' w2' :
  wf_stream_context c ->
  available_count c w1 = available_count c w2 ->
  inputStreamRead a c out n w1 = Some (r1, w1') ->
  inputStreamRead a c out n w2 = Some (r2, w2') ->
  r1.2 = r2.2 /\ offset r1.1.1 = offset r2.1.1.
Proof.
  intros Hc Hav H1 H2.
  apply inputStreamRead_returns in H1 as (_ & -> & _); [|assumption].
  apply inputStreamRead_returns in H2 as (_ & -> & _); [|assumption].
  unfold size_to_copy. rewrite Hav. split; reflexivity.
Qed.

(** X4. After any run of reads, the offset has advanced by the sum of the
    counts returned, in [size_t] arithmetic. *)
Lemma read_all_offset requests c w c' counts w' :
  wf_stream_context c ->
  is_size_t a (offset c) ->
  read_all a c requests w = Some ((c', counts), w') ->
  offset c' = to_size_t a (offset c + total counts)
  /\ Forall (fun k => 0 <= k) counts.
Proof.
  revert c w c' counts w'.
  induction requests as [|[out n] rest IH]; intros c w c' counts w' Hc Hoff Hrun.
  - cbn in Hrun. injection Hrun as <- <- <-. cbn.
    rewrite Z.add_0_r, to_size_t_id by assumption. split; [reflexivity|constructor].
  - cbn [read_all] in Hrun. unfold mbind at 1 in Hrun. unfold M_bind in Hrun.
    destruct (inputStreamRead a c out n w) as [[[[c1 out1] k] w1]|] eqn:Hread;
      [|discriminate].
    apply inputStreamRead_returns in Hread as (Hk & Hr & _); [|assumption].
    injection Hr as -> _ ->.
    unfold mbind at 1 in Hrun. unfold M_bind in Hrun.
    destruct (read_all a (advance a c (size_to_copy c n w)) rest w1)
      as [[[c2 rs] w2]|] eqn:Hrest; [|discriminate].
    cbn in Hrun. injection Hrun as <- <- <-.
    apply IH in Hrest as [Hoff' Hpos].
    + split; [|constructor; [lia|assumption]].
      rewrite Hoff'. cbn [advance offset total foldr].
      unfold to_size_t, wrap_unsigned.
      rewrite Zplus_mod_idemp_l. f_equal. unfold total. lia.
    + destruct Hc as [Ha Hr]. split; assumption.
    + apply to_size_t_range.
Qed.

(** *** The size the adapter copies, within [int] *)

Lemma size_to_copy_in_range c n w :
  0 <= n <= INT_MAX -> size_to_copy c n w = Z.min n (available_count c w).
Proof.
  intros Hn. unfold size_to_copy, min.
  rewrite to_int_id by (unfold is_jint, INT_MAX in *; lia).
  destruct (Z.ltb_spec n (available_count c w)); lia.
Qed.

Lemma available_count_le_INT_MAX c w : available_count c w <= INT_MAX.
Proof.
  pose proof (host_available_jint (input_stream c) (w_host w)) as Hj.
  unfold available_count, is_jint, INT_MAX in *. lia.
Qed.

(** X1. When the stream reports at least the requested size, the adapter
    answers the requested size, and the caller's buffer starts with the
    content of the Java array the stream has just filled. *)
Lemma read_full_when_available c out n w :
  wf_stream_context c ->
  0 <= n <= available_count c w ->
  n <= Z.of_nat (length out) ->
  exists w',
    inputStreamRead a c out n w =
      Some ((advance a c n, array_after_read c n w ++ drop (Z.to_nat n) out, n), w')
    /\ length (array_after_read c n w) = Z.to_nat n.
Proof.
  intros Hc Hn Hout.
  pose proof (available_count_le_INT_MAX c w) as Hmax.
  assert (Hs : size_to_copy c n w = n)
    by (rewrite size_to_copy_in_range by lia; lia).
  destruct (inputStreamRead_run c out n w Hc) as (w' & Hrun & _); [lia | lia |].
  exists w'. rewrite Hs in Hrun. split; [exact Hrun |].
  unfold array_after_read. rewrite length_resize, Hs. reflexivity.
Qed.

(** X2. When the stream reports less, and both sizes are ordinary (the
    request fits an [int], the report is not negative), the adapter
    answers the reported count and logs the under-read. *)
Lemma read_short_when_less_available c out n w :
  wf_stream_context c ->
  0 <= available_count c w < n ->
  n <= INT_MAX ->
  available_count c w <= Z.of_nat (length out) ->
  exists w',
    inputStreamRead a c out n w =
      Some ((advance a c (available_count c w),
             array_after_read c n w ++ drop (Z.to_nat (available_count c w)) out,
             available_count c w), w')
    /\ insufficient_read_log n (available_count c w) (delivered c n w) ∈ w_trace w'.
Proof.
  intros Hc Hav Hn Hout.
  assert (Hs : size_to_copy c n w = available_count c w)
    by (rewrite size_to_copy_in_range by lia; lia).
  destruct (inputStreamRead_run c out n w Hc) as (w' & Hrun & _ & _ & _ & Htr); [lia | lia |].
  exists w'. rewrite Hs in Hrun. split; [exact Hrun |].
  rewrite Htr. unfold read_events. rewrite Hs.
  destruct (Z.eqb_spec (available_count c w) n) as [E|_]; [lia|].
  cbn [negb orb]. rewrite !elem_of_app. right. right. left.
  apply list_elem_of_here.
Qed.

(** *** Claims *)

(** C3. [eof()] answers true exactly when the count the host stream
    reports at this call is at most zero; the call consists of that one
    [available()] query. *)
Theorem eof_iff_available_le_0 c w :
  mid_available c = MID_available ->
  exists b w',
    inputStreamEof c w = Some (b, w')
    /\ (b = true <-> available_count c w <= 0)
    /\ w_trace w' = w_trace w ++ [E_CallIntMethod (input_stream c) MID_available []].
Proof.
  intros Hm. unfold inputStreamEof. rewrite Hm.
  erewrite run_bind by apply CallIntMethod_available.
  eexists _, _. split; [reflexivity|]. split; [|reflexivity].
  unfold available_count. apply Z.leb_le.
Qed.

(** A pointer survives the trip through [jlong] and back. *)
Lemma pointer_of_jlong_of_pointer p :
  is_size_t a p -> pointer_of_jlong a (jlong_of_pointer p) = p.
Proof.
  unfold is_size_t, pointer_of_jlong, jlong_of_pointer, to_jlong, wrap_signed,
    wrap_unsigned.
  replace (2 ^ (64 - 1)) with 9223372036854775808 by reflexivity.
  replace (2 ^ 64) with 18446744073709551616 by reflexivity.
  intros Hp. destruct a; cbn [size_bits] in *.
  - replace (2 ^ 32) with 4294967296 in * by reflexivity.
    rewrite (Z.mod_small (p + _)) by lia.
    rewrite Z.mod_small; lia.
  - replace (2 ^ 64) with 18446744073709551616 in * by reflexivity.
    destruct (Z_lt_le_dec p 9223372036854775808).
    + rewrite (Z.mod_small (p + _)) by lia.
      rewrite Z.mod_small; lia.
    + rewrite <- (Z.mod_unique_pos (p + 9223372036854775808) 18446744073709551616 1
                    (p - 9223372036854775808)) by lia.
      rewrite <- (Z.mod_unique_pos _ 18446744073709551616 (-1) p) by lia.
      reflexivity.
Qed.

(** C7. For every handle, null or stale or already freed,
    [freeContext] is one call of the engine's [whisper_free] on the
    pointer whose address is the handle's value, cut to the width of a
    pointer: the pointer [p] itself when the handle is the [jlong] an
    initializer made of [p], and [NULL] for the handle 0.  Nothing is
    looked at before the call; freeing the same handle twice calls
    [whisper_free] twice. *)
Theorem freeContext_unconditional thiz_ h w :
  let free := Java_com_whispercpp_whisper_WhisperLib_Companion_freeContext a thiz_ h in
  let ctx := h mod 2 ^ size_bits a in
  free w = Some (tt, set_engine (eng_free ctx (w_engine w))
                       (record_event (E_whisper_free ctx) w))
  /\ (exists w'', (free;; free) w = Some (tt, w'')
        /\ w_trace w'' = w_trace w ++ [E_whisper_free ctx; E_whisper_free ctx]
        /\ w_engine w'' = eng_free ctx (eng_free ctx (w_engine w)))
  /\ (forall p, is_size_t a p -> h = jlong_of_pointer p -> ctx = p)
  /\ (h = 0 -> ctx = NULL).
Proof.
  intros free ctx. subst free.
  unfold Java_com_whispercpp_whisper_WhisperLib_Companion_freeContext.
  change (pointer_of_jlong a h) with ctx.
  assert (Hfree : forall w0, whisper_free ctx w0 =
            Some (tt, set_engine (eng_free ctx (w_engine w0))
                        (record_event (E_whisper_free ctx) w0)))
    by (intros w0; unfold whisper_free; erewrite run_bind by apply emit_run; reflexivity).
  split; [apply Hfree|]. split; [|split].
  - eexists. split.
    + erewrite run_bind by apply Hfree. apply Hfree.
    + world_simpl. rewrite <- app_assoc. split; reflexivity.
  - intros p Hp ->. apply pointer_of_jlong_of_pointer. exact Hp.
  - intros ->. reflexivity.
Qed.

(** C1. When the engine's inference run reports failure (a non-zero
    result), [fullTranscribe] logs "Failed to run the model" and
    returns normally with the unit value of a [void] function; the
    Java side and the host are exactly as before the call, and what
    the failure leaves is the engine's own state.  The caller cannot
    tell: in any other world with the same Java side and host, whatever
    the engine reports there, the call returns the same value and
    leaves the same Java side and host. *)
Theorem transcribe_failure_is_silent
    clazz h lang_str num_threads translate audio_data lang samples w :
  heap (w_jvm w) !! audio_data = Some (ObjFloatArray samples) ->
  heap (w_jvm w) !! lang_str = Some (ObjString lang) ->
  let ctx := pointer_of_jlong a h in
  let params := transcribe_params (eng_full_default_params WHISPER_SAMPLING_GREEDY)
                  (Some lang) num_threads translate in
  let run := Java_com_whispercpp_whisper_WhisperLib_fullTranscribe a clazz h lang_str
               num_threads translate audio_data in
  (transcribe_engine ctx params samples (w_engine w)).1 <> 0 ->
  (exists w',
     run w = Some (tt, w')
     /\ w_jvm w' = w_jvm w /\ w_host w' = w_host w
     /\ w_engine w' = (transcribe_engine ctx params samples (w_engine w)).2
     /\ exists before,
          w_trace w' = w_trace w ++ before ++
            [E_log ANDROID_LOG_INFO TAG "Failed to run the model" [];
             E_ReleaseStringUTFChars lang_str;
             E_ReleaseFloatArrayElements audio_data JNI_ABORT]
          /\ E_whisper_print_timings ctx ∉ before)
  /\ forall w2, w_jvm w2 = w_jvm w -> w_host w2 = w_host w ->
       exists w' w2',
         run w = Some (tt, w') /\ run w2 = Some (tt, w2')
         /\ w_jvm w2' = w_jvm w' /\ w_host w2' = w_host w'.
Proof.
  intros Haudio Hlang ctx params run Hrc. subst run. split.
  - rewrite (fullTranscribe_run _ _ _ _ _ _ lang samples w Haudio Hlang).
    fold ctx params.
    destruct (Z.eqb_spec (transcribe_engine ctx params samples (w_engine w)).1 0)
      as [E|_]; [contradiction|].
    eexists. split; [reflexivity|]. cbn [w_jvm w_host w_engine w_trace].
    repeat split.
    exists [E_GetFloatArrayElements audio_data; E_GetArrayLength audio_data;
            E_GetStringUTFChars lang_str;
            E_log ANDROID_LOG_INFO TAG "Language: %s" [ArgStr (Some lang)];
            E_whisper_full_default_params WHISPER_SAMPLING_GREEDY;
            E_whisper_reset_timings ctx;
            E_log ANDROID_LOG_INFO TAG "About to run whisper_full" [];
            E_whisper_full ctx params samples (Z.of_nat (length samples))].
    split.
    + unfold transcribe_events.
      destruct (Z.eqb_spec (transcribe_engine ctx params samples (w_engine w)).1 0)
        as [E|_]; [contradiction|]. reflexivity.
    + rewrite !elem_of_cons, elem_of_nil.
      intros Hin. repeat destruct Hin as [Hin|Hin]; try discriminate Hin. exact Hin.
  - intros w2 Hj Hh.
    rewrite (fullTranscribe_run _ _ _ _ _ _ lang samples w Haudio Hlang).
    rewrite (fullTranscribe_run _ _ _ _ _ _ lang samples w2)
      by (rewrite Hj; assumption).
    eexists _, _. split; [reflexivity|]. split; [reflexivity|].
    cbn [w_jvm w_host]. split; assumption.
Qed.

(** C4. Every [fullTranscribe] takes the engine's defaults for greedy
    sampling and overwrites: the four print flags with false,
    no-context with true, single-segment with false, the offset with
    0, and the language, thread count and translate flag with the
    caller's.  All other fields stay the defaults.  It calls
    [whisper_reset_timings] on the context, and only then
    [whisper_full] with these parameters, the samples and their
    count. *)
Theorem transcribe_parameters
    clazz h lang_str num_threads translate audio_data lang samples w :
  heap (w_jvm w) !! audio_data = Some (ObjFloatArray samples) ->
  heap (w_jvm w) !! lang_str = Some (ObjString lang) ->
  let ctx := pointer_of_jlong a h in
  let defaults := eng_full_default_params WHISPER_SAMPLING_GREEDY in
  exists w' params last,
    Java_com_whispercpp_whisper_WhisperLib_fullTranscribe a clazz h lang_str
      num_threads translate audio_data w = Some (tt, w')
    /\ w_trace w' = w_trace w ++
         [E_GetFloatArrayElements audio_data; E_GetArrayLength audio_data;
          E_GetStringUTFChars lang_str;
          E_log ANDROID_LOG_INFO TAG "Language: %s" [ArgStr (Some lang)];
          E_whisper_full_default_params WHISPER_SAMPLING_GREEDY;
          E_whisper_reset_timings ctx;
          E_log ANDROID_LOG_INFO TAG "About to run whisper_full" [];
          E_whisper_full ctx params samples (Z.of_nat (length samples));
          last;
          E_ReleaseStringUTFChars lang_str;
          E_ReleaseFloatArrayElements audio_data JNI_ABORT]
    /\ params = transcribe_params defaults (Some lang) num_threads translate
    /\ fp_strategy params = fp_strategy defaults
    /\ fp_other params = fp_other defaults
    /\ fp_print_realtime params = false
    /\ fp_print_progress params = false
    /\ fp_print_timestamps params = false
    /\ fp_print_special params = false
    /\ fp_no_context params = true
    /\ fp_single_segment params = false
    /\ fp_offset_ms params = 0
    /\ fp_language params = Some lang
    /\ fp_n_threads params = num_threads
    /\ fp_translate params = (translate =? JNI_TRUE).
Proof.
  intros Haudio Hlang ctx defaults.
  rewrite (fullTranscribe_run _ _ _ _ _ _ lang samples w Haudio Hlang).
  eexists _, _, _. split; [reflexivity|].
  cbn [w_trace]. split; [reflexivity|].
  repeat split.
Qed.

(** C9. [fullTranscribe] gives back the sample array and the language
    string before it returns, whatever the engine reported: the last
    two calls release them, the array with [JNI_ABORT], and the Java
    side (heap, with the samples; pins; local references) is as it was
    before the call.  The stream adapter's read releases its byte array with
    [JNI_ABORT] and deletes its local reference: pins and local
    references are as before the call. *)
Theorem host_buffers_released :
  (forall clazz h lang_str num_threads translate audio_data lang samples w,
     heap (w_jvm w) !! audio_data = Some (ObjFloatArray samples) ->
     heap (w_jvm w) !! lang_str = Some (ObjString lang) ->
     exists w' before,
       Java_com_whispercpp_whisper_WhisperLib_fullTranscribe a clazz h lang_str
         num_threads translate audio_data w = Some (tt, w')
       /\ w_jvm w' = w_jvm w
       /\ heap (w_jvm w') !! audio_data = Some (ObjFloatArray samples)
       /\ w_trace w' = w_trace w ++ before ++
            [E_ReleaseStringUTFChars lang_str;
             E_ReleaseFloatArrayElements audio_data JNI_ABORT])
  /\ (forall c out n w,
        wf_stream_context c ->
        0 <= size_to_copy c n w <= Z.of_nat (length out) ->
        exists r w' before,
          inputStreamRead a c out n w = Some (r, w')
          /\ pins (w_jvm w') = pins (w_jvm w)
          /\ local_refs (w_jvm w') = local_refs (w_jvm w)
          /\ w_trace w' = w_trace w ++ before ++
               [E_ReleaseByteArrayElements (new_ref (w_jvm w)) JNI_ABORT;
                E_DeleteLocalRef (new_ref (w_jvm w))]).
Proof.
  split.
  - intros clazz h lang_str num_threads translate audio_data lang samples w Haudio Hlang.
    rewrite (fullTranscribe_run _ _ _ _ _ _ lang samples w Haudio Hlang).
    eexists _, _. split; [reflexivity|]. cbn [w_jvm w_trace].
    split; [reflexivity|]. split; [exact Haudio|].
    unfold transcribe_events.
    match goal with |- _ ++ [?e1; ?e2; ?e3; ?e4; ?e5; ?e6; ?e7; ?e8; ?e9; ?e10; ?e11] = _ =>
      instantiate (1 := [e1; e2; e3; e4; e5; e6; e7; e8; e9])
    end.
    reflexivity.
  - intros c out n w Hc [Hlo Hhi].
    destruct (inputStreamRead_run c out n w Hc Hlo Hhi) as (w' & Hrun & Hj & _ & _ & Htr).
    eexists _, w', _. split; [exact Hrun|].
    rewrite Hj, Htr. cbn [pins local_refs jvm_store]. repeat split.
    unfold read_events.
    match goal with |- _ ++ ?A ++ ?B ++ [?e1; ?e2; ?e3] = _ =>
      instantiate (1 := A ++ B ++ [e1])
    end.
    rewrite <- !app_assoc. reflexivity.
Qed.

(** C5. When the asset manager cannot open the path (it answers
    NULL), the asset-based initializer logs a warning and returns the
    zero handle: it returns, the engine is not called and its state is
    untouched.  When the asset opens, the initializer asks the engine
    for its default context parameters and calls
    [whisper_init_with_params] with them and a loader made of the
    asset and [asset_read] / [asset_is_eof] / [asset_close]; the
    handle is the context the engine answers. *)
Theorem asset_initializer thiz_ assetManager asset_path_str path w :
  heap (w_jvm w) !! asset_path_str = Some (ObjString path) ->
  let init := Java_com_whispercpp_whisper_WhisperLib_initContextFromAsset
                a thiz_ assetManager asset_path_str in
  let asset := (asset_open_result assetManager path w).1 in
  (asset = NULL ->
     exists w',
       init w = Some (0, w')
       /\ w_engine w' = w_engine w /\ w_jvm w' = w_jvm w
       /\ w_trace w' = w_trace w ++
            [E_GetStringUTFChars asset_path_str;
             E_log ANDROID_LOG_INFO TAG ("Loading model from asset '%s'" +:+ LF)
               [ArgStr (Some path)];
             E_AAssetManager_fromJava assetManager;
             E_AAssetManager_open (host_asset_manager assetManager) (Some path)
               AASSET_MODE_STREAMING;
             E_log ANDROID_LOG_WARN TAG ("Failed to open '%s'" +:+ LF) [ArgStr (Some path)];
             E_ReleaseStringUTFChars asset_path_str])
  /\ (asset <> NULL ->
        w_trace (asset_init_start assetManager asset_path_str path w) =
          w_trace w ++
            [E_GetStringUTFChars asset_path_str;
             E_log ANDROID_LOG_INFO TAG ("Loading model from asset '%s'" +:+ LF)
               [ArgStr (Some path)];
             E_AAssetManager_fromJava assetManager;
             E_AAssetManager_open (host_asset_manager assetManager) (Some path)
               AASSET_MODE_STREAMING;
             E_whisper_context_default_params;
             E_whisper_init_with_params
               {| context := ctx_asset asset; read := fn_asset_read;
                  eof := fn_asset_is_eof; close := fn_asset_close |}
               eng_context_default_params]
        /\ forall l' ctx g' w2,
             run_loader a (asset_loader asset)
               (eng_init_with_params eng_context_default_params (w_engine w))
               (asset_init_start assetManager asset_path_str path w)
               = Some ((l', ctx, g'), w2) ->
             exists w',
               init w = Some (jlong_of_pointer ctx, w')
               /\ w_engine w' = g' /\ w_jvm w' = w_jvm w
               /\ w_trace w' = w_trace w2 ++ [E_ReleaseStringUTFChars asset_path_str]).
Proof.
  intros Hpath init asset. subst init asset. split.
  - intros Hnull.
    rewrite (initContextFromAsset_open_fails _ _ _ path w Hpath Hnull).
    eexists. split; [reflexivity|]. cbn [w_engine w_jvm w_trace]. repeat split.
  - intros Hopen. split; [reflexivity|].
    intros l' ctx g' w2 Hrun.
    rewrite (initContextFromAsset_open_succeeds _ _ _ path w l' ctx g' w2 Hpath Hopen Hrun).
    eexists. split; [reflexivity|]. cbn [w_engine w_jvm w_trace]. repeat split.
Qed.

(** C6. The stream-based initializer looks up the stream's
    [available] and [read] methods and calls the engine's [whisper_init]
    with a loader made of a fresh adapter state (offset 0) and
    [inputStreamRead] / [inputStreamEof] / [inputStreamClose]; it never
    asks for default context parameters.  The path-based initializer
    calls [whisper_init_from_file_with_params] with the path and the
    engine's default context parameters, and no loader.  Each returns
    the context the engine answers, converted to [jlong]: 0 for NULL. *)
Theorem stream_and_path_initializers thiz_ w :
  (forall stream,
     w_trace (stream_init_start thiz_ stream w) =
       w_trace w ++
         [E_GetObjectClass stream;
          E_GetMethodID (new_ref (w_jvm w)) "available" "()I";
          E_GetMethodID (new_ref (w_jvm w)) "read" "([BII)I";
          E_whisper_init
            {| context := ctx_input_stream
                            {| offset := 0; thiz := thiz_; input_stream := stream;
                               mid_available := MID_available; mid_read := MID_read |};
               read := fn_inputStreamRead; eof := fn_inputStreamEof;
               close := fn_inputStreamClose |}]
     /\ forall l' ctx g' w2,
          run_loader a (stream_loader thiz_ stream) (eng_init (w_engine w))
            (stream_init_start thiz_ stream w) = Some ((l', ctx, g'), w2) ->
          Java_com_whispercpp_whisper_WhisperLib_00024Companion_initContextFromInputStream
            a thiz_ stream w = Some (jlong_of_pointer ctx, set_engine g' w2))
  /\ (forall model_path_str path,
        heap (w_jvm w) !! model_path_str = Some (ObjString path) ->
        let r := eng_init_from_file_with_params (Some path) eng_context_default_params
                   (w_engine w) in
        exists w',
          Java_com_whispercpp_whisper_WhisperLib_initContext thiz_ model_path_str w
            = Some (jlong_of_pointer r.1, w')
          /\ w_engine w' = r.2 /\ w_jvm w' = w_jvm w /\ w_host w' = w_host w
          /\ w_trace w' = w_trace w ++
               [E_GetStringUTFChars model_path_str;
                E_whisper_context_default_params;
                E_whisper_init_from_file_with_params (Some path)
                  eng_context_default_params;
                E_ReleaseStringUTFChars model_path_str])
  /\ jlong_of_pointer NULL = 0.
Proof.
  split; [|split].
  - intros stream. split; [reflexivity|].
    intros l' ctx g' w2 Hrun. apply initContextFromInputStream_run with l'. exact Hrun.
  - intros model_path_str path Hpath r.
    rewrite (initContext_run thiz_ model_path_str path w Hpath). fold r.
    eexists. split; [reflexivity|]. cbn [w_engine w_jvm w_host w_trace]. repeat split.
  - reflexivity.
Qed.

(** C8. Each accessor is the engine's accessor on the pointer whose
    address is the handle's value, cut to the width of a pointer (the
    pointer [p] itself when the handle is the [jlong] an initializer
    made of [p]), with the index as given, in or out of range: the
    count, the start time and the end time are the engine's answers,
    and the text is a new Java string holding the engine's text (the
    null reference for a NULL text).  Nothing else is called and the
    engine's state is not changed. *)
Theorem accessors_pass_through thiz_ h index w :
  let ctx := h mod 2 ^ size_bits a in
  let g := w_engine w in
  Java_com_whispercpp_whisper_WhisperLib_getTextSegmentCount a thiz_ h w
    = Some (eng_full_n_segments ctx g, record_event (E_whisper_full_n_segments ctx) w)
  /\ Java_com_whispercpp_whisper_WhisperLib_getTextSegmentT0 a thiz_ h index w
     = Some (eng_full_get_segment_t0 ctx index g,
             record_event (E_whisper_full_get_segment_t0 ctx index) w)
  /\ Java_com_whispercpp_whisper_WhisperLib_getTextSegmentT1 a thiz_ h index w
     = Some (eng_full_get_segment_t1 ctx index g,
             record_event (E_whisper_full_get_segment_t1 ctx index) w)
  /\ (exists r w',
        Java_com_whispercpp_whisper_WhisperLib_getTextSegment a thiz_ h index w
          = Some (r, w')
        /\ w_engine w' = g
        /\ w_trace w' = w_trace w ++
             [E_whisper_full_get_segment_text ctx index;
              E_NewStringUTF (eng_full_get_segment_text ctx index g)]
        /\ match eng_full_get_segment_text ctx index g with
           | Some txt => heap (w_jvm w') !! r = Some (ObjString txt)
           | None => r = 0
           end)
  /\ (forall p, is_size_t a p -> h = jlong_of_pointer p -> ctx = p).
Proof.
  intros ctx g. subst g.
  unfold Java_com_whispercpp_whisper_WhisperLib_getTextSegmentCount,
    Java_com_whispercpp_whisper_WhisperLib_getTextSegmentT0,
    Java_com_whispercpp_whisper_WhisperLib_getTextSegmentT1,
    Java_com_whispercpp_whisper_WhisperLib_getTextSegment.
  change (pointer_of_jlong a h) with ctx.
  split; [|split; [|split; [|split]]].
  - unfold whisper_full_n_segments. erewrite run_bind by apply emit_run. reflexivity.
  - unfold whisper_full_get_segment_t0. erewrite run_bind by apply emit_run. reflexivity.
  - unfold whisper_full_get_segment_t1. erewrite run_bind by apply emit_run. reflexivity.
  - assert (Htext : whisper_full_get_segment_text ctx index w =
              Some (eng_full_get_segment_text ctx index (w_engine w),
                    record_event (E_whisper_full_get_segment_text ctx index) w))
      by (unfold whisper_full_get_segment_text;
          erewrite run_bind by apply emit_run; reflexivity).
    step (exact Htext).
    destruct (eng_full_get_segment_text ctx index (w_engine w)) as [txt|].
    + step (apply (NewStringUTF_run (Some txt))).
      eexists _, _. split; [reflexivity|]. world_simpl.
      rewrite <- app_assoc. repeat split. apply lookup_insert_eq.
    + step (apply (NewStringUTF_run None)).
      eexists _, _. split; [reflexivity|]. world_simpl.
      rewrite <- app_assoc. repeat split.
  - intros p Hp ->. apply pointer_of_jlong_of_pointer. exact Hp.
Qed.

(** *** Further properties of the stream adapter *)

Lemma min_le_r x y : min x y <= y.
Proof. unfold min. destruct (Z.ltb_spec x y); lia. Qed.

Lemma advance_0 c : is_size_t a (offset c) -> advance a c 0 = c.
Proof.
  intros Hoff. destruct c. unfold advance. cbn [offset thiz input_stream mid_available mid_read].
  rewrite Z.add_0_r, to_size_t_id by assumption. reflexivity.
Qed.

(** X5. At the end of the data (the stream reports 0 available) a
    read of any size within [int] answers 0 and leaves the caller's
    buffer and the adapter state as they were. *)
Theorem read_at_end_of_data c out n w :
  wf_stream_context c ->
  is_size_t a (offset c) ->
  available_count c w = 0 ->
  0 <= n <= INT_MAX ->
  exists w', inputStreamRead a c out n w = Some ((c, out, 0), w').
Proof.
  intros Hc Hoff Hav Hn.
  assert (Hs : size_to_copy c n w = 0)
    by (rewrite size_to_copy_in_range by assumption; rewrite Hav; lia).
  destruct (inputStreamRead_run c out n w Hc) as (w' & Hrun & _).
  { rewrite Hs. lia. }
  { rewrite Hs. lia. }
  exists w'. rewrite Hrun. unfold array_after_read. rewrite Hs.
  change (Z.to_nat 0) with 0%nat. rewrite resize_0, advance_0 by assumption.
  reflexivity.
Qed.

(** X6. A read logs "Insufficient Read" exactly when it falls short:
    when the size it copies differs from the request or from the
    count the stream's [read] answered.  A read that copies the whole
    request and gets it all from the stream logs nothing. *)
Theorem read_logs_exactly_when_short c out n w :
  wf_stream_context c ->
  0 <= size_to_copy c n w <= Z.of_nat (length out) ->
  exists r w' new,
    inputStreamRead a c out n w = Some (r, w')
    /\ w_trace w' = w_trace w ++ new
    /\ (r.2 = n /\ delivered c n w = r.2 ->
        Forall (fun e => is_log_event e = false) new)
    /\ (r.2 <> n \/ delivered c n w <> r.2 ->
        insufficient_read_log n r.2 (delivered c n w) ∈ new).
Proof.
  intros Hc [Hlo Hhi].
  destruct (inputStreamRead_run c out n w Hc Hlo Hhi) as (w' & Hrun & _ & _ & _ & Htr).
  eexists _, w', _. split; [exact Hrun|]. split; [exact Htr|].
  cbn [snd]. unfold read_events. split.
  - intros [E1 E2].
    destruct (Z.eqb_spec (size_to_copy c n w) n) as [_|N1]; [|contradiction].
    destruct (Z.eqb_spec (size_to_copy c n w) (delivered c n w)) as [_|N2];
      [|congruence].
    cbn [negb orb app]. repeat constructor.
  - intros Hshort.
    destruct (Z.eqb_spec (size_to_copy c n w) n) as [E1|N1];
      destruct (Z.eqb_spec (size_to_copy c n w) (delivered c n w)) as [E2|N2];
      cbn [negb orb].
    + destruct Hshort as [Hs|Hs]; [contradiction | congruence].
    + rewrite !elem_of_app. right. left. apply list_elem_of_here.
    + rewrite !elem_of_app. right. left. apply list_elem_of_here.
    + rewrite !elem_of_app. right. left. apply list_elem_of_here.
Qed.

(** X7. When the stream reports a negative count, the adapter asks
    [NewByteArray] for a negative length, whatever the request: the
    read returns no count at all. *)
Theorem read_negative_available_does_not_return c out n w :
  wf_stream_context c ->
  available_count c w < 0 ->
  size_to_copy c n w < 0 /\ inputStreamRead a c out n w = None.
Proof.
  intros Hc Hav.
  assert (Hs : size_to_copy c n w < 0).
  { unfold size_to_copy. pose proof (min_le_r (to_int n) (available_count c w)). lia. }
  split; [exact Hs|]. apply inputStreamRead_aborts; assumption.
Qed.

(** X8. Progress: in a world where [eof()] answers false, a read of
    at least one byte (and within [int]) answers at least 1, and never
    more than the request. *)
Theorem eof_false_read_progress c out n w :
  wf_stream_context c ->
  1 <= n <= INT_MAX ->
  Z.min n (available_count c w) <= Z.of_nat (length out) ->
  (exists w1, inputStreamEof c w = Some (false, w1)) ->
  exists c' out' k w',
    inputStreamRead a c out n w = Some ((c', out', k), w') /\ 1 <= k <= n.
Proof.
  intros Hc Hn Hout [w1 Heof].
  assert (Hav : 0 < available_count c w).
  { destruct Hc as [Ha _]. unfold inputStreamEof in Heof. rewrite Ha in Heof.
    erewrite run_bind in Heof by apply CallIntMethod_available.
    unfold mret, M_ret in Heof. injection Heof as Hb _.
    fold (available_count c w) in Hb.
    destruct (Z.leb_spec (available_count c w) 0); [discriminate|lia]. }
  assert (Hs : size_to_copy c n w = Z.min n (available_count c w))
    by (apply size_to_copy_in_range; lia).
  destruct (inputStreamRead_run c out n w Hc) as (w' & Hrun & _).
  { rewrite Hs. lia. }
  { rewrite Hs. lia. }
  eexists _, _, _, w'. split; [exact Hrun|]. rewrite Hs. lia.
Qed.

(** *** Further properties of the asset callbacks *)

Lemma to_size_t_negative z :
  - 2 ^ 31 <= z < 0 -> to_size_t a z = 2 ^ size_bits a + z.
Proof.
  intros Hz. unfold to_size_t, wrap_unsigned.
  rewrite <- (Z_mod_plus_full z 1 (2 ^ size_bits a)).
  rewrite Z.mod_small; [lia|]. destruct a; cbn [size_bits]; lia.
Qed.

Lemma asset_read_run ctx out n w :
  asset_read a ctx out n w =
  Some ((take (length out)
           ((host_asset_read ctx n (w_host w)).1.2
            ++ drop (length (host_asset_read ctx n (w_host w)).1.2) out),
         to_size_t a (host_asset_read ctx n (w_host w)).1.1),
        set_host (host_asset_read ctx n (w_host w)).2
          (record_event (E_AAsset_read ctx n) w)).
Proof.
  unfold asset_read, AAsset_read.
  unfold mbind, M_bind, mret, M_ret, emit, get_host, put_host.
  cbn [w_host record_event].
  destruct (host_asset_read ctx n (w_host w)) as [[k data] h']. reflexivity.
Qed.

(** X9. [asset_read] hands the [int] of [AAsset_read] back as a
    [size_t]: a count is returned as it is, and an error (a negative
    [int]) comes out as a count above [INT_MAX], 2^w + the error on a
    w-bit [size_t]. *)
Theorem asset_read_error_is_a_huge_count ctx out n w :
  let k := (host_asset_read ctx n (w_host w)).1.1 in
  is_jint k ->
  exists out' w',
    asset_read a ctx out n w = Some ((out', to_size_t a k), w')
    /\ w_trace w' = w_trace w ++ [E_AAsset_read ctx n]
    /\ (0 <= k -> to_size_t a k = k)
    /\ (k < 0 -> to_size_t a k = 2 ^ size_bits a + k /\ INT_MAX < to_size_t a k).
Proof.
  intros k Hk. rewrite asset_read_run. fold k.
  eexists _, _. split; [reflexivity|]. split; [reflexivity|]. split.
  - intros Hpos. apply jint_nonneg_size_t; assumption.
  - intros Hneg. unfold is_jint in Hk.
    rewrite to_size_t_negative by lia. split; [reflexivity|].
    unfold INT_MAX. destruct a; cbn [size_bits]; lia.
Qed.

Lemma call_read_asset asset buf n w :
  call_read a (asset_loader asset) buf n w =
  Some ((asset_loader asset,
         take (length buf)
           ((host_asset_read asset n (w_host w)).1.2
            ++ drop (length (host_asset_read asset n (w_host w)).1.2) buf),
         to_size_t a (host_asset_read asset n (w_host w)).1.1),
        set_host (host_asset_read asset n (w_host w)).2
          (record_event (E_AAsset_read asset n) w)).
Proof.
  unfold call_read, asset_loader. cbn [read context].
  erewrite run_bind by apply asset_read_run. reflexivity.
Qed.

Lemma call_eof_asset asset w :
  call_eof (asset_loader asset) w =
  Some (host_asset_remaining asset (w_host w) <=? 0,
        record_event (E_AAsset_getRemainingLength64 asset) w).
Proof. reflexivity. Qed.

Lemma call_close_asset asset w :
  call_close (asset_loader asset) w =
  Some (tt, set_host (host_asset_close asset (w_host w))
              (record_event (E_AAsset_close asset) w)).
Proof. reflexivity. Qed.

(** Loading through the asset callbacks always comes back, and all it
    calls is the asset. *)
Lemma run_loader_asset_total asset (s : load_script G) w :
  exists ctx g' w2 new,
    run_loader a (asset_loader asset) s w = Some ((asset_loader asset, ctx, g'), w2)
    /\ w_trace w2 = w_trace w ++ new
    /\ Forall (fun e => is_asset_event e = true) new.
Proof.
  revert w. induction s as [buf n k IH | k IH | k IH | c0 g0]; intros w.
  - cbn [run_loader]. erewrite run_bind by apply call_read_asset.
    edestruct IH as (ctx & g' & w2 & new & Hrun & Htr & Hall).
    exists ctx, g', w2, (E_AAsset_read asset n :: new).
    split; [exact Hrun|]. split.
    + rewrite Htr. world_simpl. rewrite <- app_assoc. reflexivity.
    + constructor; [reflexivity | exact Hall].
  - cbn [run_loader]. erewrite run_bind by apply call_eof_asset.
    edestruct IH as (ctx & g' & w2 & new & Hrun & Htr & Hall).
    exists ctx, g', w2, (E_AAsset_getRemainingLength64 asset :: new).
    split; [exact Hrun|]. split.
    + rewrite Htr. world_simpl. rewrite <- app_assoc. reflexivity.
    + constructor; [reflexivity | exact Hall].
  - cbn [run_loader]. erewrite run_bind by apply call_close_asset.
    edestruct IH as (ctx & g' & w2 & new & Hrun & Htr & Hall).
    exists ctx, g', w2, (E_AAsset_close asset :: new).
    split; [exact Hrun|]. split.
    + rewrite Htr. world_simpl. rewrite <- app_assoc. reflexivity.
    + constructor; [reflexivity | exact Hall].
  - exists c0, g0, w, []. split; [reflexivity|]. split.
    + rewrite app_nil_r. reflexivity.
    + constructor.
Qed.

(** X10. Whatever sequence of reads, end-of-data checks and closes
    the engine issues, loading through the asset callbacks comes back
    to the engine: it calls nothing but [AAsset_read],
    [AAsset_getRemainingLength64] and [AAsset_close], and leaves the
    Java side and the engine's state alone. *)
Theorem asset_loading_only_touches_the_asset asset (s : load_script G) w :
  exists ctx g' w2 new,
    run_loader a (asset_loader asset) s w = Some ((asset_loader asset, ctx, g'), w2)
    /\ w_jvm w2 = w_jvm w /\ w_engine w2 = w_engine w
    /\ w_trace w2 = w_trace w ++ new
    /\ Forall (fun e => is_asset_event e = true) new.
Proof.
  destruct (run_loader_asset_total asset s w) as (ctx & g' & w2 & new & Hrun & Htr & Hall).
  destruct (run_loader_asset_frame _ _ _ _ _ _ _ Hrun) as [Hj Hg].
  exists ctx, g', w2, new. repeat split; assumption.
Qed.

(** X11. Once the asset opens, the asset-based initializer runs the
    engine's loading script through the asset callbacks and returns
    the [jlong] of the context that run answers.  From the engine's
    load call to the release of the path string, which comes last, it
    calls nothing but the asset; the engine is left as the load left
    it and the Java side is as before. *)
Theorem asset_initializer_returns thiz_ assetManager asset_path_str path w :
  heap (w_jvm w) !! asset_path_str = Some (ObjString path) ->
  (asset_open_result assetManager path w).1 <> NULL ->
  let asset := (asset_open_result assetManager path w).1 in
  let start := asset_init_start assetManager asset_path_str path w in
  exists ctx g' w2 w' new,
    run_loader a (asset_loader asset)
      (eng_init_with_params eng_context_default_params (w_engine w)) start
      = Some ((asset_loader asset, ctx, g'), w2)
    /\ Java_com_whispercpp_whisper_WhisperLib_initContextFromAsset
         a thiz_ assetManager asset_path_str w = Some (jlong_of_pointer ctx, w')
    /\ w_engine w' = g'
    /\ w_jvm w' = w_jvm w
    /\ w_trace w' = w_trace start ++ new ++ [E_ReleaseStringUTFChars asset_path_str]
    /\ Forall (fun e => is_asset_event e = true) new.
Proof.
  intros Hpath Hopen asset start.
  destruct (run_loader_asset_total asset
              (eng_init_with_params eng_context_default_params (w_engine w)) start)
    as (ctx & g' & w2 & new & Hrun & Htr & Hall).
  exists ctx, g'. eexists w2, _, new. split; [exact Hrun|].
  rewrite (initContextFromAsset_open_succeeds _ _ _ path w _ ctx g' w2 Hpath Hopen Hrun).
  split; [reflexivity|]. cbn [w_engine w_jvm w_trace].
  split; [reflexivity|]. split; [reflexivity|]. split; [|exact Hall].
  rewrite Htr, <- app_assoc. reflexivity.
Qed.

(** *** Further properties of loading from a stream *)

Lemma heap_preserved_refl (j : jvm) : heap_preserved j j.
Proof. intros r o Hr. exact Hr. Qed.

Lemma heap_preserved_trans (j1 j2 j3 : jvm) :
  heap_preserved j1 j2 -> heap_preserved j2 j3 -> heap_preserved j1 j3.
Proof. intros H12 H23 r o Hr. apply H23, H12, Hr. Qed.

Lemma heap_preserved_new (j : jvm) o :
  heap_preserved j (jvm_store (new_ref j) o j).
Proof.
  intros r o' Hr. cbn [jvm_store heap].
  rewrite lookup_insert_ne; [exact Hr|].
  intros E. rewrite <- E, new_ref_fresh in Hr. discriminate.
Qed.

Lemma advance_wf c k : wf_stream_context c -> wf_stream_context (advance a c k).
Proof. intros [Ha Hr]. split; assumption. Qed.

Lemma inputStreamEof_run c w :
  wf_stream_context c ->
  inputStreamEof c w =
  Some (available_count c w <=? 0,
        set_host (host_available (input_stream c) (w_host w)).2
          (record_event (E_CallIntMethod (input_stream c) MID_available []) w)).
Proof.
  intros [Ha _]. unfold inputStreamEof. rewrite Ha.
  erewrite run_bind by apply CallIntMethod_available. reflexivity.
Qed.

(** However the engine drives the stream adapter, a loading run that
    comes back has given back every array it borrowed and every local
    reference it made; the objects that were on the heap are
    untouched and the adapter state still names the same stream. *)
Lemma run_loader_stream_frame (s : load_script G) c w l' ctx g' w2 :
  wf_stream_context c ->
  run_loader a (stream_loader_at c) s w = Some ((l', ctx, g'), w2) ->
  pins (w_jvm w2) = pins (w_jvm w)
  /\ local_refs (w_jvm w2) = local_refs (w_jvm w)
  /\ heap_preserved (w_jvm w) (w_jvm w2)
  /\ w_engine w2 = w_engine w
  /\ exists c', l' = stream_loader_at c' /\ wf_stream_context c'
                /\ input_stream c' = input_stream c.
Proof.
  revert c w. induction s as [buf n k IH | k IH | k IH | c0 g0]; intros c w Hc Hrun.
  - cbn [run_loader] in Hrun. unfold mbind at 1 in Hrun. unfold M_bind in Hrun.
    unfold call_read, stream_loader_at in Hrun. cbn [read context eof close] in Hrun.
    unfold mbind at 1 in Hrun. unfold M_bind in Hrun.
    destruct (inputStreamRead a c buf n w) as [[[[c1 out1] r1] w1]|] eqn:Hread;
      [|discriminate].
    apply inputStreamRead_returns in Hread as (_ & Hr & Hw); [|assumption].
    injection Hr as -> -> ->. subst w1.
    cbn in Hrun. fold (stream_loader_at (advance a c (size_to_copy c n w))) in Hrun.
    apply IH in Hrun as (Hp & Hl & Hh & Hg & c' & Hl' & Hc' & Hs);
      [|apply advance_wf; assumption].
    cbn [read_world w_jvm w_engine jvm_store pins local_refs] in Hp, Hl, Hg.
    split; [exact Hp|]. split; [exact Hl|]. split; [|split; [exact Hg|]].
    + eapply heap_preserved_trans; [|exact Hh]. apply heap_preserved_new.
    + exists c'. split; [exact Hl'|]. split; [exact Hc'|exact Hs].
  - cbn [run_loader] in Hrun. unfold mbind at 1 in Hrun. unfold M_bind in Hrun.
    unfold call_eof, stream_loader_at in Hrun. cbn [read context eof close] in Hrun.
    rewrite inputStreamEof_run in Hrun by assumption.
    fold (stream_loader_at c) in Hrun.
    apply IH in Hrun as (Hp & Hl & Hh & Hg & Hex); [|assumption].
    split; [exact Hp|]. split; [exact Hl|]. split; [exact Hh|].
    split; [exact Hg|exact Hex].
  - cbn [run_loader] in Hrun. unfold mbind at 1 in Hrun. unfold M_bind in Hrun.
    unfold call_close, stream_loader_at in Hrun. cbn [read context eof close] in Hrun.
    unfold inputStreamClose, mret, M_ret in Hrun.
    fold (stream_loader_at c) in Hrun.
    apply IH in Hrun; assumption.
  - cbn in Hrun. injection Hrun as <- <- <- <-.
    split; [reflexivity|]. split; [reflexivity|].
    split; [apply heap_preserved_refl|]. split; [reflexivity|].
    exists c. split; [reflexivity|]. split; [exact Hc|reflexivity].
Qed.

(** X12. When the engine's loading run through the stream comes back,
    the stream-based initializer returns the handle, and it has given
    back everything it borrowed: nothing is left pinned, the one new
    local reference is the stream's class, and every object that was
    on the heap is untouched. *)
Theorem stream_initializer_leaves_nothing_pinned thiz_ stream w l' ctx g' w2 :
  run_loader a (stream_loader thiz_ stream) (eng_init (w_engine w))
    (stream_init_start thiz_ stream w) = Some ((l', ctx, g'), w2) ->
  exists w',
    Java_com_whispercpp_whisper_WhisperLib_00024Companion_initContextFromInputStream
      a thiz_ stream w = Some (jlong_of_pointer ctx, w')
    /\ pins (w_jvm w') = pins (w_jvm w)
    /\ local_refs (w_jvm w') = new_ref (w_jvm w) :: local_refs (w_jvm w)
    /\ heap_preserved (w_jvm w) (w_jvm w')
    /\ w_engine w' = g'.
Proof.
  intros Hrun.
  rewrite (initContextFromInputStream_run _ _ _ _ _ _ _ Hrun).
  eexists. split; [reflexivity|].
  apply (run_loader_stream_frame _
           {| offset := 0; thiz := thiz_; input_stream := stream;
              mid_available := MID_available; mid_read := MID_read |})
    in Hrun as (Hp & Hl & Hh & _); [|split; reflexivity].
  cbn [set_engine w_jvm w_engine].
  unfold stream_init_start in Hp, Hl, Hh.
  cbn [w_jvm jvm_add_ref jvm_store pins local_refs] in Hp, Hl.
  split; [exact Hp|]. split; [exact Hl|]. split; [|reflexivity].
  eapply heap_preserved_trans; [|exact Hh].
  intros r o Hr. cbn [w_jvm jvm_add_ref jvm_store heap].
  rewrite lookup_insert_ne; [exact Hr|].
  intros E. rewrite <- E, new_ref_fresh in Hr. discriminate.
Qed.

(** *** Further properties of handles *)

(** X13. A context pointer survives the trip to the host and back:
    converting it to the [jlong] handle and the handle back to a
    pointer gives the same pointer, on both ABIs and also for
    addresses in the upper half of a 64-bit space (whose handles are
    negative).  The handle is 0 only for the null pointer. *)
Theorem handle_round_trip p :
  is_size_t a p ->
  pointer_of_jlong a (jlong_of_pointer p) = p
  /\ (jlong_of_pointer p = 0 <-> p = NULL).
Proof.
  intros Hp. split; [apply pointer_of_jlong_of_pointer; exact Hp|].
  split.
  - intros E. rewrite <- (pointer_of_jlong_of_pointer p Hp), E.
    unfold pointer_of_jlong, wrap_unsigned, NULL. apply Z.mod_0_l.
    destruct a; cbn [size_bits]; lia.
  - intros ->. reflexivity.
Qed.

(** X14. Creating a context from a model path and freeing the handle
    that came back frees exactly the context the engine created: the
    engine sees [whisper_init_from_file_with_params] and then
    [whisper_free] on its own answer. *)
Theorem path_init_then_free thiz_ model_path_str path w :
  heap (w_jvm w) !! model_path_str = Some (ObjString path) ->
  let r := eng_init_from_file_with_params (Some path) eng_context_default_params
             (w_engine w) in
  is_size_t a r.1 ->
  exists w',
    (h ← Java_com_whispercpp_whisper_WhisperLib_initContext thiz_ model_path_str;
     Java_com_whispercpp_whisper_WhisperLib_Companion_freeContext a thiz_ h) w
      = Some (tt, w')
    /\ w_engine w' = eng_free r.1 r.2
    /\ w_jvm w' = w_jvm w
    /\ w_trace w' = w_trace w ++
         [E_GetStringUTFChars model_path_str;
          E_whisper_context_default_params;
          E_whisper_init_from_file_with_params (Some path) eng_context_default_params;
          E_ReleaseStringUTFChars model_path_str;
          E_whisper_free r.1].
Proof.
  intros Hpath r Hr.
  erewrite run_bind by (apply (initContext_run thiz_ model_path_str path w Hpath)).
  fold r.
  unfold Java_com_whispercpp_whisper_WhisperLib_Companion_freeContext.
  rewrite pointer_of_jlong_of_pointer by exact Hr.
  unfold whisper_free.
  erewrite run_bind by apply emit_run.
  eexists. split; [reflexivity|]. world_simpl.
  rewrite <- app_assoc. repeat split.
Qed.

(** *** Further properties of the string-returning entry points *)

Lemma new_ref_not_null (j : jvm) : new_ref j <> 0.
Proof.
  unfold new_ref. pose proof (is_fresh ({[0]} ∪ dom (heap j))) as Hf.
  intros E. apply Hf. apply elem_of_union_l, elem_of_singleton. exact E.
Qed.

(** An engine call answering a C string, followed by [NewStringUTF]. *)
Lemma string_passthrough (call : M c_str) (e : event FP CP) (f : G -> c_str) w :
  (forall w0, call w0 = Some (f (w_engine w0), record_event e w0)) ->
  returns_new_string (text ← call; string ← NewStringUTF text; mret string)
    [e] (f (w_engine w)) w.
Proof.
  intros Hcall. unfold returns_new_string.
  step (apply Hcall).
  destruct (f (w_engine w)) as [txt|].
  - step (apply (NewStringUTF_run (Some txt))).
    eexists _, _. split; [reflexivity|]. cbn [w_trace w_engine w_host w_jvm pins heap local_refs].
    split; [rewrite <- app_assoc; reflexivity|].
    split; [reflexivity|]. split; [reflexivity|]. split; [reflexivity|].
    split; [apply (heap_preserved_new (w_jvm w))|].
    split; [apply new_ref_not_null|]. split; [apply new_ref_fresh|].
    split; [apply lookup_insert_eq|reflexivity].
  - step (apply (NewStringUTF_run None)).
    eexists _, _. split; [reflexivity|]. cbn [w_trace w_engine w_host w_jvm pins].
    split; [rewrite <- app_assoc; reflexivity|].
    split; [reflexivity|]. split; [reflexivity|]. split; [reflexivity|].
    split; [apply heap_preserved_refl|]. split; reflexivity.
Qed.

(** X15. The system-information and the two benchmark entry points
    each make one engine call (the benchmarks with the thread count as
    given) and answer its text as a new Java string: a fresh non-null
    reference and one more local reference, with every existing
    object, the host and the engine's state untouched; a NULL text
    gives the null reference. *)
Theorem info_entry_points_return_new_strings thiz_ n_threads w :
  returns_new_string (Java_com_whispercpp_whisper_WhisperLib_getSystemInfo thiz_)
    [E_whisper_print_system_info] (eng_print_system_info (w_engine w)) w
  /\ returns_new_string
       (Java_com_whispercpp_whisper_WhisperLib_benchMemcpy thiz_ n_threads)
       [E_whisper_bench_memcpy_str n_threads]
       (eng_bench_memcpy_str n_threads (w_engine w)) w
  /\ returns_new_string
       (Java_com_whispercpp_whisper_WhisperLib_benchGgmlMulMat thiz_ n_threads)
       [E_whisper_bench_ggml_mul_mat_str n_threads]
       (eng_bench_ggml_mul_mat_str n_threads (w_engine w)) w.
Proof.
  split; [|split].
  - apply (string_passthrough whisper_print_system_info _ eng_print_system_info).
    intros w0. unfold whisper_print_system_info.
    erewrite run_bind by apply emit_run. reflexivity.
  - apply (string_passthrough (whisper_bench_memcpy_str n_threads) _
             (eng_bench_memcpy_str n_threads)).
    intros w0. unfold whisper_bench_memcpy_str.
    erewrite run_bind by apply emit_run. reflexivity.
  - apply (string_passthrough (whisper_bench_ggml_mul_mat_str n_threads) _
             (eng_bench_ggml_mul_mat_str n_threads)).
    intros w0. unfold whisper_bench_ggml_mul_mat_str.
    erewrite run_bind by apply emit_run. reflexivity.
Qed.

(** X16. Every [getTextSegment] makes a new Java string: the
    reference it answers is fresh and not null, one local reference is
    added per call, and no object that was on the heap is touched (a
    NULL text from the engine gives the null reference and changes
    nothing). *)
Theorem getTextSegment_returns_new_string thiz_ h index w :
  returns_new_string
    (Java_com_whispercpp_whisper_WhisperLib_getTextSegment a thiz_ h index)
    [E_whisper_full_get_segment_text (pointer_of_jlong a h) index]
    (eng_full_get_segment_text (pointer_of_jlong a h) index (w_engine w)) w.
Proof.
  apply (string_passthrough
           (whisper_full_get_segment_text (pointer_of_jlong a h) index) _
           (eng_full_get_segment_text (pointer_of_jlong a h) index)).
  intros w0. unfold whisper_full_get_segment_text.
  erewrite run_bind by apply emit_run. reflexivity.
Qed.

(** *** Further properties of transcription *)

(** X17. When the engine's inference run reports success (0),
    [fullTranscribe] calls [whisper_print_timings] on the context
    right after it, writes no failure line, releases the string and
    the samples, and leaves the engine in the state that call left. *)
Theorem transcribe_success_prints_timings
    clazz h lang_str num_threads translate audio_data lang samples w :
  heap (w_jvm w) !! audio_data = Some (ObjFloatArray samples) ->
  heap (w_jvm w) !! lang_str = Some (ObjString lang) ->
  let ctx := pointer_of_jlong a h in
  let params := transcribe_params (eng_full_default_params WHISPER_SAMPLING_GREEDY)
                  (Some lang) num_threads translate in
  let r := transcribe_engine ctx params samples (w_engine w) in
  r.1 = 0 ->
  exists w' before,
    Java_com_whispercpp_whisper_WhisperLib_fullTranscribe a clazz h lang_str
      num_threads translate audio_data w = Some (tt, w')
    /\ w_engine w' = eng_print_timings ctx r.2
    /\ w_jvm w' = w_jvm w
    /\ w_trace w' = w_trace w ++ before ++
         [E_whisper_full ctx params samples (Z.of_nat (length samples));
          E_whisper_print_timings ctx;
          E_ReleaseStringUTFChars lang_str;
          E_ReleaseFloatArrayElements audio_data JNI_ABORT]
    /\ E_log ANDROID_LOG_INFO TAG "Failed to run the model" [] ∉ before.
Proof.
  intros Haudio Hlang ctx params r Hrc.
  rewrite (fullTranscribe_run _ _ _ _ _ _ lang samples w Haudio Hlang).
  fold ctx params. fold r. unfold transcribe_events.
  destruct (Z.eqb_spec r.1 0) as [_|N]; [|contradiction].
  eexists.
  exists [E_GetFloatArrayElements audio_data; E_GetArrayLength audio_data;
          E_GetStringUTFChars lang_str;
          E_log ANDROID_LOG_INFO TAG "Language: %s" [ArgStr (Some lang)];
          E_whisper_full_default_params WHISPER_SAMPLING_GREEDY;
          E_whisper_reset_timings ctx;
          E_log ANDROID_LOG_INFO TAG "About to run whisper_full" []].
  split; [reflexivity|]. cbn [w_engine w_jvm w_trace].
  split; [reflexivity|]. split; [reflexivity|]. split; [reflexivity|].
  rewrite !elem_of_cons, elem_of_nil.
  intros Hin. repeat destruct Hin as [Hin|Hin]; try discriminate Hin. exact Hin.
Qed.

(** X19. A segment count read after a transcription is the engine's
    count for the same context pointer in the state that transcription
    left, whether the inference run succeeded or failed: the two entry
    points convert the handle alike and the binding keeps no result
    state of its own. *)
Theorem transcribe_then_count
    clazz thiz_ h lang_str num_threads translate audio_data lang samples w :
  heap (w_jvm w) !! audio_data = Some (ObjFloatArray samples) ->
  heap (w_jvm w) !! lang_str = Some (ObjString lang) ->
  let ctx := pointer_of_jlong a h in
  let params := transcribe_params (eng_full_default_params WHISPER_SAMPLING_GREEDY)
                  (Some lang) num_threads translate in
  let r := transcribe_engine ctx params samples (w_engine w) in
  let g := if r.1 =? 0 then eng_print_timings ctx r.2 else r.2 in
  exists w',
    (Java_com_whispercpp_whisper_WhisperLib_fullTranscribe a clazz h lang_str
       num_threads translate audio_data;;
     Java_com_whispercpp_whisper_WhisperLib_getTextSegmentCount a thiz_ h) w
      = Some (eng_full_n_segments ctx g, w')
    /\ w_engine w' = g /\ w_jvm w' = w_jvm w
    /\ w_trace w' = w_trace w
         ++ transcribe_events ctx params lang_str audio_data lang samples r.1
         ++ [E_whisper_full_n_segments ctx].
Proof.
  intros Haudio Hlang ctx params r g.
  erewrite run_bind
    by (apply (fullTranscribe_run _ _ _ _ _ _ lang samples w Haudio Hlang)).
  fold ctx params. fold r. fold g.
  unfold Java_com_whispercpp_whisper_WhisperLib_getTextSegmentCount. fold ctx.
  unfold whisper_full_n_segments.
  erewrite run_bind by apply emit_run.
  eexists. split; [reflexivity|]. world_simpl.
  rewrite <- app_assoc. split; [reflexivity|]. split; reflexivity.
Qed.

(** *** The helpers [min] and [max] *)

(** X18. [min] and [max] compute the smaller and the larger of two
    [int]s.  At the one call, [min(read_size, (size_t)avail_size)],
    the conversions to [int] cancel for a request within [int]: the
    result is the smaller of the request and the reported count, on
    both ABIs. *)
Theorem min_at_its_call n v :
  0 <= n <= INT_MAX ->
  is_jint v ->
  min (to_int n) (to_int (to_size_t a v)) = Z.min n v
  /\ (forall x y, min x y = Z.min x y /\ max x y = Z.max x y).
Proof.
  intros Hn Hv. split.
  - rewrite to_int_to_size_t by exact Hv.
    rewrite to_int_id by (unfold is_jint, INT_MAX in *; lia).
    unfold min. destruct (Z.ltb_spec n v); lia.
  - intros x y. unfold min, max. split.
    + destruct (Z.ltb_spec x y); lia.
    + rewrite Z.gtb_ltb. destruct (Z.ltb_spec y x); lia.
Qed.

End Properties.

(** ** Requests beyond [INT_MAX] *)

(** C2 (the code departs from the claim).  On a 64-bit ABI a request
    of 2^32 bytes reaches [min] as the [int] 0: with 7 bytes reported
    available, less than the request, the adapter creates an empty
    array, leaves the caller's buffer alone and answers 0, not the 7
    of the claim. *)
Theorem read_truncates_oversized_request {H : Type} `{!Host H} {G FP CP : Type}
    `{!Engine G FP CP} (c : input_stream_context) (out : list byte)
    (w : @world H G FP CP) :
  wf_stream_context c ->
  available_count c w = 7 ->
  exists w',
    inputStreamRead LP64 c out 4294967296 w = Some ((advance LP64 c 0, out, 0), w')
    /\ Z.min 4294967296 (available_count c w) = 7
    /\ E_NewByteArray 0 ∈ w_trace w'.
Proof.
  intros Hc Hav.
  assert (Hs : size_to_copy c 4294967296 w = 0)
    by (unfold size_to_copy; rewrite Hav; reflexivity).
  destruct (inputStreamRead_run LP64 c out 4294967296 w Hc) as (w' & Hrun & _ & _ & _ & Htr).
  { rewrite Hs. lia. }
  { rewrite Hs. lia. }
  exists w'. split; [|split].
  - rewrite Hrun. unfold array_after_read. rewrite Hs.
    change (Z.to_nat 0) with 0%nat. rewrite resize_0. reflexivity.
  - rewrite Hav. reflexivity.
  - rewrite Htr. unfold read_events. rewrite Hs.
    rewrite !elem_of_app. right. left. apply list_elem_of_further, list_elem_of_here.
Qed.

(** C10 (the code departs from the claim).  On a 64-bit ABI a request
    of 2^32 + 5 bytes reaches [min] as the [int] 5: with 7 bytes
    reported available the adapter answers 5 and advances the offset
    by 5, whatever the stream then delivers, where the claim has
    min(2^32 + 5, 7) = 7. *)
Theorem read_advance_follows_truncated_size {H : Type} `{!Host H} {G FP CP : Type}
    `{!Engine G FP CP} (c : input_stream_context) (out : list byte)
    (w : @world H G FP CP) :
  wf_stream_context c ->
  available_count c w = 7 ->
  5 <= Z.of_nat (length out) ->
  exists out' w',
    inputStreamRead LP64 c out 4294967301 w = Some ((advance LP64 c 5, out', 5), w')
    /\ offset (advance LP64 c 5) = to_size_t LP64 (offset c + 5)
    /\ Z.min 4294967301 (available_count c w) = 7.
Proof.
  intros Hc Hav Hout.
  assert (Hs : size_to_copy c 4294967301 w = 5)
    by (unfold size_to_copy; rewrite Hav; reflexivity).
  destruct (inputStreamRead_run LP64 c out 4294967301 w Hc) as (w' & Hrun & _).
  { rewrite Hs. lia. }
  { rewrite Hs. lia. }
  eexists _, w'. split; [|split].
  - rewrite Hrun, Hs. reflexivity.
  - reflexivity.
  - rewrite Hav. reflexivity.
Qed.

#[local] Existing Instances demo_Host demo_Engine.

(** ** The statements at the reference host and engine *)

Lemma eof_iff_available_le_0_witness :
  let w := demo_world (demo_stream 0 3) false in
  mid_available demo_context = MID_available /\
  exists b w',
    inputStreamEof demo_context w = Some (b, w')
    /\ (b = true <-> available_count demo_context w <= 0)
    /\ w_trace w' = w_trace w ++ [E_CallIntMethod 3 MID_available []].
Proof.
  intros w. split; [reflexivity|].
  exact (eof_iff_available_le_0 demo_context w eq_refl).
Defined.

Lemma transcribe_failure_is_silent_witness :
  let w := demo_world (demo_stream 7 3) true in
  heap (w_jvm w) !! 2 = Some (ObjFloatArray [0; 0; 0]) /\
  heap (w_jvm w) !! 1 = Some (ObjString "en") /\
  exists w',
    Java_com_whispercpp_whisper_WhisperLib_fullTranscribe LP64 0 8192 1 2 0 2 w
      = Some (tt, w')
    /\ w_jvm w' = w_jvm w /\ w_host w' = w_host w.
Proof.
  intros w. split; [reflexivity|]. split; [reflexivity|].
  destruct (transcribe_failure_is_silent LP64 0 8192 1 2 0 2 "en" [0; 0; 0] w
              eq_refl eq_refl) as [(w' & Hrun & Hj & Hh & _) _].
  - vm_compute. discriminate.
  - exists w'. repeat split; assumption.
Defined.

Lemma transcribe_parameters_witness :
  let w := demo_world (demo_stream 7 3) false in
  heap (w_jvm w) !! 2 = Some (ObjFloatArray [0; 0; 0]) /\
  heap (w_jvm w) !! 1 = Some (ObjString "en") /\
  exists w' params,
    Java_com_whispercpp_whisper_WhisperLib_fullTranscribe LP64 0 8192 1 2 1 2 w
      = Some (tt, w')
    /\ E_whisper_full 8192 params [0; 0; 0] 3 ∈ w_trace w'
    /\ fp_no_context params = true /\ fp_print_progress params = false
    /\ fp_n_threads params = 2 /\ fp_translate params = true.
Proof.
  intros w. split; [reflexivity|]. split; [reflexivity|].
  destruct (transcribe_parameters LP64 0 8192 1 2 1 2 "en" [0; 0; 0] w eq_refl eq_refl)
    as (w' & params & last & Hrun & Htr & Hp & _).
  exists w', params. split; [exact Hrun|]. split.
  - rewrite Htr. cbn. do 7 apply list_elem_of_further. apply list_elem_of_here.
  - subst params. repeat split.
Defined.

Lemma host_buffers_released_witness :
  let w := demo_world (demo_stream 7 3) true in
  heap (w_jvm w) !! 2 = Some (ObjFloatArray [0; 0; 0]) /\
  heap (w_jvm w) !! 1 = Some (ObjString "en") /\
  exists w',
    Java_com_whispercpp_whisper_WhisperLib_fullTranscribe LP64 0 8192 1 2 0 2 w
      = Some (tt, w')
    /\ w_jvm w' = w_jvm w.
Proof.
  intros w. split; [reflexivity|]. split; [reflexivity|].
  destruct (proj1 (host_buffers_released LP64) 0 8192 1 2 0 2 "en" [0; 0; 0] w
              eq_refl eq_refl) as (w' & before & Hrun & Hj & _).
  exists w'. split; assumption.
Defined.

Lemma asset_initializer_witness :
  let w := demo_world (demo_stream 7 3) false in
  heap (w_jvm w) !! 6 = Some (ObjString "models/missing.bin") /\
  (asset_open_result 4 "models/missing.bin" w).1 = NULL /\
  exists w',
    Java_com_whispercpp_whisper_WhisperLib_initContextFromAsset LP64 0 4 6 w
      = Some (0, w')
    /\ w_engine w' = w_engine w.
Proof.
  intros w. split; [reflexivity|]. split; [reflexivity|].
  assert (Hnull : (asset_open_result 4 "models/missing.bin" w).1 = NULL)
    by reflexivity.
  destruct (proj1 (asset_initializer LP64 0 4 6 "models/missing.bin" w eq_refl) Hnull)
    as (w' & Hrun & Hg & _).
  exists w'. split; assumption.
Defined.

Lemma stream_and_path_initializers_witness :
  let w := demo_world (demo_stream 7 3) false in
  heap (w_jvm w) !! 7 = Some (ObjString "model.bin") /\
  exists w',
    Java_com_whispercpp_whisper_WhisperLib_initContext 0 7 w = Some (8192, w')
    /\ w_jvm w' = w_jvm w.
Proof.
  intros w. split; [reflexivity|].
  destruct (proj1 (proj2 (stream_and_path_initializers LP64 0 w)) 7 "model.bin" eq_refl)
    as (w' & Hrun & _ & Hj & _).
  exists w'. split; [exact Hrun | exact Hj].
Defined.

Lemma freeContext_unconditional_witness :
  let w := keyed_world in
  Java_com_whispercpp_whisper_WhisperLib_Companion_freeContext
    (Engine0 := keyed_Engine) LP64 0 8192 w
  = Some (tt, {| w_jvm := w_jvm w; w_host := w_host w;
                 w_engine := [(4096, [("un", 0, 1); ("deux", 1, 2)])];
                 w_trace := [E_whisper_free 8192] |})
  /\ Java_com_whispercpp_whisper_WhisperLib_Companion_freeContext
       (Engine0 := keyed_Engine) LP64 0 (-9223372036854775800) w
     = Some (tt, {| w_jvm := w_jvm w; w_host := w_host w;
                    w_engine := w_engine w;
                    w_trace := [E_whisper_free 9223372036854775816] |}).
Proof.
  intros w. split.
  - exact (proj1 (freeContext_unconditional LP64 (Engine0 := keyed_Engine) 0 8192 w)).
  - exact (proj1 (freeContext_unconditional LP64 (Engine0 := keyed_Engine) 0
                    (-9223372036854775800) w)).
Defined.

Lemma accessors_pass_through_witness :
  let w := keyed_world in
  Java_com_whispercpp_whisper_WhisperLib_getTextSegmentCount
    (Engine0 := keyed_Engine) LP64 0 8192 w
  = Some (1, record_event (E_whisper_full_n_segments 8192) w)
  /\ Java_com_whispercpp_whisper_WhisperLib_getTextSegmentCount
       (Engine0 := keyed_Engine) LP64 0 4096 w
     = Some (2, record_event (E_whisper_full_n_segments 4096) w)
  /\ Java_com_whispercpp_whisper_WhisperLib_getTextSegmentT0
       (Engine0 := keyed_Engine) LP64 0 4096 1 w
     = Some (1, record_event (E_whisper_full_get_segment_t0 4096 1) w)
  /\ Java_com_whispercpp_whisper_WhisperLib_getTextSegmentT1
       (Engine0 := keyed_Engine) LP64 0 8192 0 w
     = Some (3, record_event (E_whisper_full_get_segment_t1 8192 0) w)
  /\ Java_com_whispercpp_whisper_WhisperLib_getTextSegmentT1
       (Engine0 := keyed_Engine) LP64 0 8192 (-1) w
     = Some (0, record_event (E_whisper_full_get_segment_t1 8192 (-1)) w)
  /\ exists r w',
       Java_com_whispercpp_whisper_WhisperLib_getTextSegment
         (Engine0 := keyed_Engine) LP64 0 8192 0 w = Some (r, w')
       /\ heap (w_jvm w') !! r = Some (ObjString "hello").
Proof.
  intros w.
  pose proof (accessors_pass_through LP64 (Engine0 := keyed_Engine) 0 8192 0 w)
    as (Hn & _ & Ht1 & (r & w' & Hrun & _ & _ & Htxt) & _).
  pose proof (accessors_pass_through LP64 (Engine0 := keyed_Engine) 0 4096 1 w)
    as (Hn' & Ht0 & _).
  pose proof (accessors_pass_through LP64 (Engine0 := keyed_Engine) 0 8192 (-1) w)
    as (_ & _ & Ht1' & _).
  split; [exact Hn|]. split; [exact Hn'|]. split; [exact Ht0|].
  split; [exact Ht1|]. split; [exact Ht1'|].
  exists r, w'. split; [exact Hrun | exact Htxt].
Defined.

Lemma read_truncates_oversized_request_witness :
  let w := demo_world (demo_stream 7 100) false in
  wf_stream_context demo_context /\
  available_count demo_context w = 7 /\
  exists w',
    inputStreamRead LP64 demo_context (replicate 8 Byte.x00) 4294967296 w
      = Some ((advance LP64 demo_context 0, replicate 8 Byte.x00, 0), w').
Proof.
  intros w. split; [split; reflexivity|]. split; [reflexivity|].
  assert (Hav : available_count demo_context w = 7) by reflexivity.
  destruct (read_truncates_oversized_request demo_context (replicate 8 Byte.x00) w
              (conj eq_refl eq_refl) Hav) as (w' & Hrun & _).
  exists w'. exact Hrun.
Defined.

Lemma read_advance_follows_truncated_size_witness :
  let w := demo_world (demo_stream 7 3) false in
  wf_stream_context demo_context /\
  available_count demo_context w = 7 /\
  exists out' w',
    inputStreamRead LP64 demo_context (replicate 8 Byte.x00) 4294967301 w
      = Some ((advance LP64 demo_context 5, out', 5), w').
Proof.
  intros w. split; [split; reflexivity|]. split; [reflexivity|].
  assert (Hav : available_count demo_context w = 7) by reflexivity.
  destruct (read_advance_follows_truncated_size demo_context (replicate 8 Byte.x00) w
              (conj eq_refl eq_refl) Hav) as (out' & w' & Hrun & _).
  - vm_compute. discriminate.
  - exists out', w'. exact Hrun.
Defined.

(** ** The further properties at the reference hosts *)

Lemma read_full_when_available_witness :
  let w := demo_world (demo_stream 7 100) false in
  wf_stream_context demo_context /\
  0 <= 4 <= available_count demo_context w /\
  exists out' w',
    inputStreamRead LP64 demo_context (replicate 8 Byte.x00) 4 w
      = Some ((advance LP64 demo_context 4, out', 4), w').
Proof.
  intros w. split; [split; reflexivity|].
  assert (Hav : 0 <= 4 <= available_count demo_context w) by (vm_compute; split; discriminate).
  split; [exact Hav|].
  destruct (read_full_when_available LP64 demo_context (replicate 8 Byte.x00) 4 w
              (conj eq_refl eq_refl) Hav) as (w' & Hrun & _).
  - vm_compute. discriminate.
  - eexists _, w'. exact Hrun.
Defined.

Lemma read_short_when_less_available_witness :
  let w := demo_world (demo_stream 3 100) false in
  wf_stream_context demo_context /\
  0 <= available_count demo_context w < 5 /\
  exists out' w',
    inputStreamRead LP64 demo_context (replicate 8 Byte.x00) 5 w
      = Some ((advance LP64 demo_context 3, out', 3), w').
Proof.
  intros w. split; [split; reflexivity|].
  assert (Hav : 0 <= available_count demo_context w < 5)
    by (vm_compute; split; [discriminate|reflexivity]).
  split; [exact Hav|].
  destruct (read_short_when_less_available LP64 demo_context (replicate 8 Byte.x00) 5 w
              (conj eq_refl eq_refl) Hav) as (w' & Hrun & _).
  - vm_compute. discriminate.
  - vm_compute. discriminate.
  - eexists _, w'. exact Hrun.
Defined.

Lemma read_count_ignores_delivery_witness :
  let w1 := demo_world (demo_stream 7 3) false in
  let w2 := demo_world (demo_stream 7 100) false in
  let out := replicate 8 Byte.x00 in
  available_count demo_context w1 = available_count demo_context w2 /\
  exists r1 r2 w1' w2',
    inputStreamRead LP64 demo_context out 5 w1 = Some (r1, w1')
    /\ inputStreamRead LP64 demo_context out 5 w2 = Some (r2, w2')
    /\ r1.2 = r2.2 /\ offset r1.1.1 = offset r2.1.1.
Proof.
  intros w1 w2 out. split; [reflexivity|].
  eexists _, _, _, _.
  split; [vm_compute; reflexivity|]. split; [vm_compute; reflexivity|].
  eapply (read_count_ignores_delivery LP64 demo_context out 5 w1 w2).
  - split; reflexivity.
  - reflexivity.
  - vm_compute. reflexivity.
  - vm_compute. reflexivity.
Defined.

Lemma read_all_offset_witness :
  let w := demo_world (demo_stream 7 100) false in
  let out := replicate 8 Byte.x00 in
  wf_stream_context demo_context /\
  is_size_t LP64 (offset demo_context) /\
  exists c' counts w',
    read_all LP64 demo_context [(out, 4); (out, 2)] w = Some ((c', counts), w')
    /\ offset c' = to_size_t LP64 (offset demo_context + total counts).
Proof.
  intros w out. split; [split; reflexivity|].
  assert (Hoff : is_size_t LP64 (offset demo_context)) by (vm_compute; split; [discriminate|reflexivity]).
  split; [exact Hoff|].
  eexists _, _, _. split; [vm_compute; reflexivity|].
  eapply (read_all_offset LP64 [(out, 4); (out, 2)] demo_context w).
  - split; reflexivity.
  - exact Hoff.
  - vm_compute. reflexivity.
Defined.

Lemma read_at_end_of_data_witness :
  let w := demo_world (demo_stream 0 100) false in
  let out := replicate 8 Byte.x00 in
  available_count demo_context w = 0 /\
  exists w', inputStreamRead LP64 demo_context out 5 w = Some ((demo_context, out, 0), w').
Proof.
  intros w out. split; [reflexivity|].
  apply (read_at_end_of_data LP64 demo_context out 5 w).
  - split; reflexivity.
  - vm_compute. split; [discriminate|reflexivity].
  - reflexivity.
  - vm_compute. split; discriminate.
Defined.

Lemma read_logs_exactly_when_short_witness :
  let w := demo_world (demo_stream 7 100) false in
  let out := replicate 8 Byte.x00 in
  0 <= size_to_copy demo_context 4 w <= Z.of_nat (length out) /\
  exists r w' new,
    inputStreamRead LP64 demo_context out 4 w = Some (r, w')
    /\ w_trace w' = w_trace w ++ new.
Proof.
  intros w out.
  assert (Hs : 0 <= size_to_copy demo_context 4 w <= Z.of_nat (length out))
    by (vm_compute; split; discriminate).
  split; [exact Hs|].
  destruct (read_logs_exactly_when_short LP64 demo_context out 4 w
              (conj eq_refl eq_refl) Hs) as (r & w' & new & Hrun & Htr & _).
  exists r, w', new. split; assumption.
Defined.

Lemma read_negative_available_does_not_return_witness :
  let w := demo_world (demo_stream (-1) 3) false in
  available_count demo_context w < 0 /\
  inputStreamRead LP64 demo_context (replicate 8 Byte.x00) 5 w = None.
Proof.
  intros w.
  assert (Hav : available_count demo_context w < 0) by reflexivity.
  split; [exact Hav|].
  exact (proj2 (read_negative_available_does_not_return LP64 demo_context
                  (replicate 8 Byte.x00) 5 w (conj eq_refl eq_refl) Hav)).
Defined.

Lemma eof_false_read_progress_witness :
  let w := demo_world (demo_stream 7 100) false in
  let out := replicate 8 Byte.x00 in
  (exists w1, inputStreamEof demo_context w = Some (false, w1)) /\
  exists c' out' k w',
    inputStreamRead LP64 demo_context out 4 w = Some ((c', out', k), w') /\ 1 <= k <= 4.
Proof.
  intros w out.
  assert (Heof : exists w1, inputStreamEof demo_context w = Some (false, w1))
    by (eexists; vm_compute; reflexivity).
  split; [exact Heof|].
  apply (eof_false_read_progress LP64 demo_context out 4 w).
  - split; reflexivity.
  - vm_compute. split; discriminate.
  - vm_compute. discriminate.
  - exact Heof.
Defined.

Lemma asset_read_error_is_a_huge_count_witness :
  let out := replicate 8 Byte.x00 in
  (host_asset_read (Host := failing_Host) 4096 4 (w_host failing_world)).1.1 = -1 /\
  exists out' w',
    asset_read (Host0 := failing_Host) LP64 4096 out 4 failing_world
      = Some ((out', 18446744073709551615), w').
Proof.
  intros out. split; [reflexivity|].
  destruct (asset_read_error_is_a_huge_count LP64 (Host0 := failing_Host)
              4096 out 4 failing_world is_jint_minus_1) as (out' & w' & Hrun & _).
  exists out', w'. exact Hrun.
Defined.

Lemma asset_initializer_returns_witness :
  let w := demo_world (demo_stream 7 3) false in
  heap (w_jvm w) !! 5 = Some (ObjString "models/ggml-base.bin") /\
  (asset_open_result 4 "models/ggml-base.bin" w).1 <> NULL /\
  exists w',
    Java_com_whispercpp_whisper_WhisperLib_initContextFromAsset LP64 0 4 5 w
      = Some (8192, w')
    /\ w_jvm w' = w_jvm w.
Proof.
  intros w. split; [reflexivity|].
  assert (Hopen : (asset_open_result 4 "models/ggml-base.bin" w).1 <> NULL)
    by (vm_compute; discriminate).
  split; [exact Hopen|].
  destruct (asset_initializer_returns LP64 0 4 5 "models/ggml-base.bin" w eq_refl Hopen)
    as (ctx & g' & w2 & w' & new & Hrun & Hinit & _ & Hj & _).
  exists w'. split; [|exact Hj].
  rewrite Hinit. vm_compute in Hrun.
  injection Hrun as Hctx _. rewrite <- Hctx. reflexivity.
Defined.

Lemma stream_initializer_leaves_nothing_pinned_witness :
  let w := demo_world (demo_stream 7 3) false in
  exists w',
    Java_com_whispercpp_whisper_WhisperLib_00024Companion_initContextFromInputStream
      LP64 0 3 w = Some (8192, w')
    /\ pins (w_jvm w') = pins (w_jvm w).
Proof.
  intros w.
  edestruct (stream_initializer_leaves_nothing_pinned LP64 0 3 w)
    as (w' & Hrun & Hp & _).
  - vm_compute. reflexivity.
  - exists w'. split; [exact Hrun | exact Hp].
Defined.

Lemma handle_round_trip_witness :
  is_size_t LP64 9223372036854775816 /\
  jlong_of_pointer 9223372036854775816 = -9223372036854775800 /\
  pointer_of_jlong LP64 (jlong_of_pointer 9223372036854775816) = 9223372036854775816.
Proof.
  assert (Hp : is_size_t LP64 9223372036854775816)
    by (vm_compute; split; [discriminate|reflexivity]).
  split; [exact Hp|]. split; [reflexivity|].
  exact (proj1 (handle_round_trip LP64 9223372036854775816 Hp)).
Defined.

Lemma path_init_then_free_witness :
  let w := demo_world (demo_stream 7 3) false in
  heap (w_jvm w) !! 7 = Some (ObjString "model.bin") /\
  exists w',
    (h ← Java_com_whispercpp_whisper_WhisperLib_initContext 0 7;
     Java_com_whispercpp_whisper_WhisperLib_Companion_freeContext LP64 0 h) w
      = Some (tt, w')
    /\ w_jvm w' = w_jvm w.
Proof.
  intros w. split; [reflexivity|].
  destruct (path_init_then_free LP64 0 7 "model.bin" w eq_refl)
    as (w' & Hrun & _ & Hj & _).
  - vm_compute. split; [discriminate|reflexivity].
  - exists w'. split; assumption.
Defined.

Lemma transcribe_success_prints_timings_witness :
  let w := demo_world (demo_stream 7 3) false in
  heap (w_jvm w) !! 2 = Some (ObjFloatArray [0; 0; 0]) /\
  heap (w_jvm w) !! 1 = Some (ObjString "en") /\
  exists w',
    Java_com_whispercpp_whisper_WhisperLib_fullTranscribe LP64 0 8192 1 2 0 2 w
      = Some (tt, w')
    /\ E_whisper_print_timings 8192 ∈ w_trace w'.
Proof.
  intros w. split; [reflexivity|]. split; [reflexivity|].
  destruct (transcribe_success_prints_timings LP64 0 8192 1 2 0 2 "en" [0; 0; 0] w
              eq_refl eq_refl) as (w' & before & Hrun & _ & _ & Htr & _).
  - reflexivity.
  - exists w'. split; [exact Hrun|]. rewrite Htr.
    rewrite !elem_of_app. right. right.
    apply list_elem_of_further, list_elem_of_here.
Defined.

Lemma min_at_its_call_witness :
  0 <= 5 <= INT_MAX /\ is_jint 7 /\
  min (to_int 5) (to_int (to_size_t LP64 7)) = Z.min 5 7.
Proof.
  assert (Hn : 0 <= 5 <= INT_MAX) by (vm_compute; split; discriminate).
  assert (Hv : is_jint 7) by (vm_compute; split; [discriminate|reflexivity]).
  split; [exact Hn|]. split; [exact Hv|].
  exact (proj1 (min_at_its_call LP64 5 7 Hn Hv)).
Defined.

Lemma transcribe_then_count_witness :
  let w := demo_world (demo_stream 7 3) false in
  heap (w_jvm w) !! 2 = Some (ObjFloatArray [0; 0; 0]) /\
  heap (w_jvm w) !! 1 = Some (ObjString "en") /\
  exists w',
    (Java_com_whispercpp_whisper_WhisperLib_fullTranscribe LP64 0 8192 1 2 0 2;;
     Java_com_whispercpp_whisper_WhisperLib_getTextSegmentCount LP64 0 8192) w
      = Some (1, w').
Proof.
  intros w. split; [reflexivity|]. split; [reflexivity|].
  destruct (transcribe_then_count LP64 0 0 8192 1 2 0 2 "en" [0; 0; 0] w
              eq_refl eq_refl) as (w' & Hrun & _).
  exists w'. exact Hrun.
Defined.
